(** * Stress-level prediction service: model lifecycle and inference pipeline

    A shallow embedding of the Python sources

      - [ml_logic/preprocessing.py]  (modules [Preprocessing], [TrainPipeline])
      - [ml_logic/train.py]          (modules [Train], [TrainPipeline])
      - [server/predict.py]          (modules [Predict], [PredictService])
      - [server/app.py]              (module [App])

    together with the properties of the specification that concern them and
    further properties of the code: validation, results and batches, the
    two prediction routes, the training run, missing values and scalers.

    Numbers.  The numpy arrays of [preprocessing.py] are evaluated in IEEE
    binary64 ([PrimFloat]), so that division by zero, NaN and comparisons
    behave exactly as they do in numpy.  The scalar post-processing of
    [predict.py] (sign test, [max], [round(_, 4)]) is analysed over the
    rationals extended with the two infinities and NaN ([Py.pyfloat]): a
    binary64 value is represented by the rational it denotes, and the int to
    float conversion rounds to the nearest binary64 value and overflows
    where the real conversion does.

    Library calls.  Python's, numpy's, pandas' and scikit-learn's functions are
    not part of the repository; the ones the sources call are modelled in
    module [Py] and at the head of each module, or taken as section variables
    (string to float parsing, the learning algorithm, unpickling).

    Logging.  The calls to [logger] do not change any value and are left out,
    except in [ModelTrainer.save_model], where the log is the only trace of
    the error besides the result. *)

From Stdlib Require Import ZArith QArith Qround Qabs Floats Lia Lqa DecimalString.
From stdpp Require Import base option list gmap strings.

Set Warnings "-register-all".
#[local] Open Scope string_scope.

(* ================================================================= *)
(** ** Python values, exceptions and floats *)

Module Py.

(** Exception classes the sources raise, catch, or let through. *)
Inductive exn_class :=
| ValueError | TypeError | OverflowError | IndexError | KeyError
| NotFittedError | OSError | PicklingError
| OtherException (name : string).

Record exn := Exn { exn_cls : exn_class; exn_msg : string }.

(** [except (ValueError, TypeError)] *)
Definition is_ValueError_or_TypeError (e : exn) : bool :=
  match exn_cls e with
  | ValueError | TypeError => true
  | _ => false
  end.

(** A call either returns or raises. *)
Inductive outcome (A : Type) :=
| Return (a : A)
| Raise (e : exn).
Arguments Return {A} a.
Arguments Raise {A} e.

#[export] Instance outcome_ret : MRet outcome := @Return.
#[export] Instance outcome_bind : MBind outcome := λ A B f m,
  match m with
  | Return a => f a
  | Raise e => Raise e
  end.

(** [try: m  except Exception as e: h e] *)
Definition try_except {A} (m : outcome A) (h : exn → outcome A) : outcome A :=
  match m with
  | Return a => Return a
  | Raise e => h e
  end.

(** Python floats: finite values (as the rational they denote),
    [inf], [-inf] and [nan]. *)
Inductive pyfloat :=
| Finite (q : Q)
| PosInf
| NegInf
| NaN.

Definition Qlt_bool (a b : Q) : bool := negb (Qle_bool b a).

(** [x < y] on floats; every comparison with NaN is false. *)
Definition flt (x y : pyfloat) : bool :=
  match x, y with
  | NaN, _ | _, NaN => false
  | _, NegInf => false
  | NegInf, _ => true
  | PosInf, _ => false
  | Finite _, PosInf => true
  | Finite a, Finite b => Qlt_bool a b
  end.

(** [x > y] *)
Definition fgt (x y : pyfloat) : bool := flt y x.

Definition fzero : pyfloat := Finite 0.

(** JSON-like Python values, as they reach the predictor and leave it. *)
Inductive pyval :=
| VNone
| VBool (b : bool)
| VInt (z : Z)
| VFloat (f : pyfloat)
| VStr (s : string)
| VList (l : list pyval)
| VDict (d : list (string * pyval)).

(** [type(v).__name__] *)
Definition type_name (v : pyval) : string :=
  match v with
  | VNone => "NoneType"
  | VBool _ => "bool"
  | VInt _ => "int"
  | VFloat _ => "float"
  | VStr _ => "str"
  | VList _ => "list"
  | VDict _ => "dict"
  end.

(** A dict literal, in insertion order. *)
Definition pydict := list (string * pyval).

Fixpoint dict_get {V} (d : list (string * V)) (k : string) : option V :=
  match d with
  | [] => None
  | (k', v) :: d' => if String.eqb k' k then Some v else dict_get d' k
  end.

(** [d[k] = v]: overwrite in place, or append a new key. *)
Fixpoint dict_set {V} (d : list (string * V)) (k : string) (v : V)
  : list (string * V) :=
  match d with
  | [] => [(k, v)]
  | (k', v') :: d' =>
      if String.eqb k' k then (k', v) :: d' else (k', v') :: dict_set d' k v
  end.

(** [float(n)] for an int [n] raises OverflowError as soon as [n] rounds
    beyond the largest binary64 value, that is from [2^1024 - 2^970] on. *)
Definition float_int_bound : Z := 2 ^ 1024 - 2 ^ 970.

(** The binary64 value nearest to an integer, as an integer: integers of up
    to 53 bits are kept, longer ones are rounded to 53 significant bits,
    ties to the even significand. *)
Definition nearest_binary64 (z : Z) : Z :=
  let a := Z.abs z in
  let e := (Z.log2 a - 52)%Z in
  if (e <=? 0)%Z then z
  else
    let q := (a / 2 ^ e)%Z in
    let r := (a mod 2 ^ e)%Z in
    let half := (2 ^ (e - 1))%Z in
    let q' := if (r <? half)%Z then q
              else if (half <? r)%Z then (q + 1)%Z
              else if Z.even q then q else (q + 1)%Z in
    (Z.sgn z * (q' * 2 ^ e))%Z.

Definition float_of_int (z : Z) : outcome pyfloat :=
  if (Z.abs z <? float_int_bound)%Z
  then Return (Finite (inject_Z (nearest_binary64 z)))
  else Raise (Exn OverflowError "int too large to convert to float").

(** [str(n)] for a natural number. *)
Definition str_of_nat (n : nat) : string :=
  NilZero.string_of_uint (Nat.to_uint n).

Section Float.
(** The string to float conversion of the interpreter; [None] when the
    string is not a float literal. *)
Variable str_to_float : string → option pyfloat.

(** The builtin [float(v)]. *)
Definition float (v : pyval) : outcome pyfloat :=
  match v with
  | VBool b => Return (Finite (if b then 1 else 0))
  | VInt z => float_of_int z
  | VFloat f => Return f
  | VStr s =>
      match str_to_float s with
      | Some f => Return f
      | None =>
          Raise (Exn ValueError ("could not convert string to float: '" ++ s ++ "'"))
      end
  | VNone | VList _ | VDict _ =>
      Raise (Exn TypeError
               ("float() argument must be a string or a real number, not '"
                ++ type_name v ++ "'"))
  end.
End Float.

(** [l[i]] on a list, with Python's negative indices. *)
Definition list_index {A} (l : list A) (i : Z) : outcome A :=
  let n := Z.of_nat (length l) in
  let j := if (i <? 0)%Z then (i + n)%Z else i in
  if ((0 <=? j) && (j <? n))%Z
  then match l !! Z.to_nat j with
       | Some a => Return a
       | None => Raise (Exn IndexError "list index out of range")
       end
  else Raise (Exn IndexError "list index out of range").

(** [a[0]] on an array. *)
Definition index0 {A} (l : list A) : outcome A :=
  match l with
  | a :: _ => Return a
  | [] => Raise (Exn IndexError "index 0 is out of bounds for axis 0 with size 0")
  end.

(** The builtin [max] on a sequence: the first maximal item under [>]. *)
Definition py_max (l : list pyfloat) : outcome pyfloat :=
  match l with
  | [] => Raise (Exn ValueError "max() arg is an empty sequence")
  | x :: l' => Return (fold_left (λ cur item, if fgt item cur then item else cur) l' x)
  end.

(** Round half to even, to the nearest integer. *)
Definition round_half_even (q : Q) : Z :=
  let f := Qfloor q in
  let r := (q - inject_Z f)%Q in
  if Qlt_bool r (1 # 2) then f
  else if Qlt_bool (1 # 2) r then (f + 1)%Z
  else if Z.even f then f else (f + 1)%Z.

(** [round(x, 4)] *)
Definition round4 (x : pyfloat) : pyfloat :=
  match x with
  | Finite q => Finite (round_half_even (q * 10000) # 10000)
  | _ => x
  end.

(** [str(l)] for a list of plain strings: ['a', 'b'] *)
Fixpoint join (sep : string) (l : list string) : string :=
  match l with
  | [] => ""
  | [s] => s
  | s :: l' => s ++ sep ++ join sep l'
  end.

Definition str_of_list (l : list string) : string :=
  "[" ++ join ", " (map (λ s, "'" ++ s ++ "'") l) ++ "]".

(** The digit-string fragment of the float grammar, enough to run examples
    with string inputs through [float]; the value is rounded as [float] of
    the integer is, and a digit string beyond the binary64 range converts to
    [inf]. *)
Definition digit_value (c : Ascii.ascii) : option Z :=
  let n := Z.of_N (Ascii.N_of_ascii c) in
  if ((48 <=? n) && (n <=? 57))%Z then Some (n - 48)%Z else None.

Fixpoint digits_value (acc : Z) (s : string) : option Z :=
  match s with
  | EmptyString => Some acc
  | String c s' =>
      match digit_value c with
      | Some d => digits_value (10 * acc + d)%Z s'
      | None => None
      end
  end.

Definition decimal_str_to_float (s : string) : option pyfloat :=
  match s with
  | EmptyString => None
  | _ => match digits_value 0 s with
         | Some z =>
             Some (if (z <? float_int_bound)%Z
                   then Finite (inject_Z (nearest_binary64 z)) else PosInf)
         | None => None
         end
  end.

End Py.

(* ================================================================= *)
(** ** [ml_logic/preprocessing.py] *)

Module Preprocessing.
Import Py.
#[local] Open Scope float_scope.

(** *** numpy: two-dimensional float64 arrays *)

(** [X.shape = (length (rows X), ncols X)]; every row of an array has
    [ncols X] entries. *)
Record ndarray := NdArray { ncols : nat; rows : list (list PrimFloat.float) }.

Definition nrows (X : ndarray) : nat := length (rows X).

Definition float_of_nat (n : nat) : PrimFloat.float :=
  PrimFloat.of_uint63 (Uint63.of_Z (Z.of_nat n)).

Definition isnan (x : PrimFloat.float) : bool := negb (PrimFloat.eqb x x).

Definition nan : PrimFloat.float := PrimFloat.nan.

(** Arrays are taken in C order (row after row), as [np.array] and
    [np.random.rand] build them.  numpy then sums in two ways.

    Along axis 0 the rows are added to the result one after the other, so
    the entries of a column are summed left to right, starting from 0. *)
Definition fsum (l : list PrimFloat.float) : PrimFloat.float := fold_left PrimFloat.add l 0.

(** Over all the entries (no [axis]) the array is one run of memory and
    numpy's pairwise summation applies: fewer than 8 entries are added left
    to right; up to 128 entries are added into 8 accumulators, entry [i]
    into accumulator [i mod 8], the accumulators are added as a balanced
    tree and the entries left over after the last full group of 8 are added
    one by one; a longer run is cut in two at a multiple of 8 and the sums of
    the two halves are added. *)
Fixpoint accumulate8 (groups : nat) (r l : list PrimFloat.float)
  : list PrimFloat.float * list PrimFloat.float :=
  match groups with
  | O => (r, l)
  | S groups' => accumulate8 groups' (zip_with PrimFloat.add r (take 8 l)) (drop 8 l)
  end.

Definition tree8 (r : list PrimFloat.float) : PrimFloat.float :=
  match r with
  | [r0; r1; r2; r3; r4; r5; r6; r7] =>
      ((r0 + r1) + (r2 + r3)) + ((r4 + r5) + (r6 + r7))
  | _ => fsum r
  end.

Definition block_sum (l : list PrimFloat.float) : PrimFloat.float :=
  let '(r, rest) := accumulate8 (length l / 8 - 1) (take 8 l) (drop 8 l) in
  fold_left PrimFloat.add rest (tree8 r).

(** The depth of the recursion is bounded by [fuel]; the length of the run
    is always enough ([PreprocessingFacts.pairwise_sum_fuel_enough]). *)
Fixpoint pairwise_sum_fuel (fuel : nat) (l : list PrimFloat.float) : PrimFloat.float :=
  let n := length l in
  if (n <? 8)%nat then fsum l
  else if (n <=? 128)%nat then block_sum l
  else
    match fuel with
    | O => block_sum l
    | S fuel' =>
        let n2 := (n / 2 - (n / 2) mod 8)%nat in
        pairwise_sum_fuel fuel' (take n2 l) + pairwise_sum_fuel fuel' (drop n2 l)
    end.

Definition pairwise_sum (l : list PrimFloat.float) : PrimFloat.float :=
  pairwise_sum_fuel (length l) l.

(** [np.add.reduce] over all the entries: the result starts at the identity
    0 and the pairwise sum of the run is added to it. *)
Definition array_sum (l : list PrimFloat.float) : PrimFloat.float :=
  0 + pairwise_sum l.

(** [X.mean()] and [X.std()] without [axis], over all the entries:
    [sum / n], and [sqrt (sum ((x - mean)^2) / n)] with the mean computed
    first.  An empty array gives [0/0 = nan] (numpy warns and does not
    raise). *)
Definition array_mean (X : ndarray) : PrimFloat.float :=
  let a := concat (rows X) in
  array_sum a / float_of_nat (length a).

Definition array_std (X : ndarray) : PrimFloat.float :=
  let a := concat (rows X) in
  let arrmean := array_sum a / float_of_nat (length a) in
  let x := map (λ v, (v - arrmean) * (v - arrmean)) a in
  PrimFloat.sqrt (array_sum x / float_of_nat (length a)).

(** [X[:, j]]; IndexError when the array has no column [j]. *)
Definition column (X : ndarray) (j : nat) : outcome (list PrimFloat.float) :=
  if (j <? ncols X)%nat
  then Return (map (λ r, nth j r nan) (rows X))
  else Raise (Exn IndexError
                ("index " ++ str_of_nat j ++ " is out of bounds for axis 1 with size "
                 ++ str_of_nat (ncols X))).

(** All the columns, left to right. *)
Definition columns (X : ndarray) : list (list PrimFloat.float) :=
  map (λ j, map (λ r, nth j r nan) (rows X)) (seq 0 (ncols X)).

(** [X[mask]] with a boolean mask over the rows. *)
Definition boolean_index (X : ndarray) (mask : list bool) : ndarray :=
  NdArray (ncols X) (map fst (filter (λ rm, snd rm = true) (zip (rows X) mask))).

(** *** pandas: the column statistics used by [fillna] *)

Definition dropnan (l : list PrimFloat.float) : list PrimFloat.float :=
  filter (λ x, isnan x = false) l.

(** [df.mean()] for one column of a frame with missing entries: pandas
    sums a copy of the column in which NaN is replaced by 0 (one run of
    memory, so the sum is pairwise) and divides by the number of entries that
    are not NaN; a column without such an entry gives [0/0 = nan]. *)
Definition nanmean (l : list PrimFloat.float) : PrimFloat.float :=
  array_sum (map (λ x, if isnan x then 0 else x) l)
  / float_of_nat (length (dropnan l)).

Fixpoint insert_sorted (x : PrimFloat.float) (l : list PrimFloat.float) : list PrimFloat.float :=
  match l with
  | [] => [x]
  | y :: l' => if x <=? y then x :: l else y :: insert_sorted x l'
  end.

Definition sort (l : list PrimFloat.float) : list PrimFloat.float :=
  foldr insert_sorted [] l.

(** [df.median()] for one column: the middle of the sorted non-NaN entries,
    or the mean of the two middle ones; NaN when there is none. *)
Definition nanmedian (l : list PrimFloat.float) : PrimFloat.float :=
  let s := sort (dropnan l) in
  let n := length s in
  if (n =? 0)%nat then nan
  else if Nat.odd n then nth (n / 2) s nan
  else (nth (n / 2 - 1) s nan + nth (n / 2) s nan) / 2.

(** [df.fillna(values)]: a NaN entry of column [j] is replaced by
    [values[j]]. *)
Definition fillna (X : ndarray) (values : list PrimFloat.float) : ndarray :=
  NdArray (ncols X)
    (map (λ r, zip_with (λ x v, if isnan x then v else x) r values) (rows X)).

(** [df.dropna()]: the rows without NaN. *)
Definition dropna (X : ndarray) : ndarray :=
  NdArray (ncols X) (filter (λ r, forallb (λ x, negb (isnan x)) r = true) (rows X)).

(** *** scikit-learn: [StandardScaler] *)

(** The fitted attributes [mean_] and [scale_]; [None] before [fit]. *)
Record StandardScaler := { fitted : option (list PrimFloat.float * list PrimFloat.float) }.

(** [StandardScaler()] *)
Definition StandardScaler_new : StandardScaler := {| fitted := None |}.

Definition has_inf (X : ndarray) : bool :=
  existsb (existsb PrimFloat.is_infinity) (rows X).

(** The library's input validation: at least one sample and one feature,
    no infinity (NaN is let through). *)
Definition check_array (X : ndarray) : outcome unit :=
  let shape := "(" ++ str_of_nat (nrows X) ++ ", " ++ str_of_nat (ncols X) ++ ")" in
  if has_inf X
  then Raise (Exn ValueError
                "Input X contains infinity or a value too large for dtype('float64').")
  else if (nrows X =? 0)%nat
  then Raise (Exn ValueError
                ("Found array with 0 sample(s) (shape=" ++ shape
                 ++ ") while a minimum of 1 is required by StandardScaler."))
  else if (ncols X =? 0)%nat
  then Raise (Exn ValueError
                ("Found array with 0 feature(s) (shape=" ++ shape
                 ++ ") while a minimum of 1 is required by StandardScaler."))
  else Return ().

(** [np.nansum(_, axis=0)] for one column: NaN counts as 0. *)
Definition nansum (c : list PrimFloat.float) : PrimFloat.float :=
  fsum (map (λ x, if isnan x then 0 else x) c).

(** The machine epsilon of binary64. *)
Definition float64_eps : PrimFloat.float := 0x1p-52.

(** The mean and the variance of one column as the first [fit] computes
    them ([_incremental_mean_and_var] with nothing seen before): the sum
    over the [n] non-NaN entries divided by [n], and the sum of the squared
    deviations, corrected by the square of the sum of the deviations over
    [n], divided by [n]. *)
Definition column_mean_var (c : list PrimFloat.float) : PrimFloat.float * PrimFloat.float :=
  let n := float_of_nat (length (dropnan c)) in
  let new_sum := nansum c in
  let updated_mean := (0 + new_sum) / n in
  let T := new_sum / n in
  let temp := map (λ x, x - T) c in
  let correction := nansum temp in
  let new_unnormalized_variance :=
    nansum (map (λ x, x * x) temp) - correction * correction / n in
  (updated_mean, new_unnormalized_variance / n).

(** [_is_constant_feature]: the variance is within the rounding error of a
    constant column. *)
Definition is_constant_feature (var_ mean_ n_samples : PrimFloat.float) : bool :=
  let upper_bound :=
    n_samples * float64_eps * var_
    + (n_samples * mean_ * float64_eps) * (n_samples * mean_ * float64_eps) in
  var_ <=? upper_bound.

(** [scaler.fit(X)]: per-column mean and scale; the scale is the square
    root of the variance, and 1 for a constant or nearly constant
    column. *)
Definition scaler_fit (X : ndarray) : outcome StandardScaler :=
  _ ← check_array X;
  let stats := map (λ c, (column_mean_var c, float_of_nat (length (dropnan c))))
                   (columns X) in
  let scale (s : PrimFloat.float * PrimFloat.float * PrimFloat.float) :=
    let '(mean_j, var_j, n) := s in
    if is_constant_feature var_j mean_j n then 1 else PrimFloat.sqrt var_j in
  Return {| fitted := Some (map (λ s, fst (fst s)) stats, map scale stats) |}.

(** [scaler.transform(X)]: [(x - mean_) / scale_], column by column. *)
Definition scaler_transform (sc : StandardScaler) (X : ndarray) : outcome ndarray :=
  match fitted sc with
  | None =>
      Raise (Exn NotFittedError
               ("This StandardScaler instance is not fitted yet. Call 'fit' with "
                ++ "appropriate arguments before using this estimator."))
  | Some (mean_, scale_) =>
      _ ← check_array X;
      if (ncols X =? length mean_)%nat
      then Return (NdArray (ncols X)
             (map (λ r, zip_with (λ x ms, (x - fst ms) / snd ms) r (zip mean_ scale_))
                  (rows X)))
      else Raise (Exn ValueError
                    ("X has " ++ str_of_nat (ncols X)
                     ++ " features, but StandardScaler is expecting "
                     ++ str_of_nat (length mean_) ++ " features as input."))
  end.

(** Scaler objects live in a heap and are passed by reference. *)
Definition loc := nat.
Definition heap := gmap loc StandardScaler.

(** What a call hands back to its caller. *)
Inductive pyobj :=
| ObjArray (a : ndarray)
| ObjScaler (l : loc)
| ObjTuple (l : list pyobj).

(** [scaler.fit_transform(X)]: the object is reset, fitted in place, and
    the transformed array is returned. *)
Definition fit_transform (h : heap) (l : loc) (X : ndarray) : heap * outcome ndarray :=
  match scaler_fit X with
  | Return sc => (<[l := sc]> h, scaler_transform sc X)
  | Raise e => (<[l := StandardScaler_new]> h, Raise e)
  end.

(** [scaler.transform(X)] through a reference: the heap is only read. *)
Definition transform (h : heap) (l : loc) (X : ndarray) : outcome ndarray :=
  match h !! l with
  | Some sc => scaler_transform sc X
  | None => Raise (Exn (OtherException "ReferenceError") "no such object")
  end.

(** *** The functions of the module *)

(** [preprocess_data(X, scaler=None, fit=True)] *)
Definition preprocess_data (h : heap) (X : ndarray) (scaler : option loc) (fit : bool)
  : heap * outcome pyobj :=
  let '(h, scaler) :=
    match scaler with
    | None => let l := fresh (dom h) in (<[l := StandardScaler_new]> h, l)
    | Some l => (h, l)
    end in
  let '(h, X_scaled) :=
    if fit then fit_transform h scaler X
    else (h, transform h scaler X) in
  (h, X_scaled ≫= λ X_scaled, Return (ObjArray X_scaled)).

(** [handle_missing_values(X, strategy='mean')] *)
Definition handle_missing_values (X : ndarray) (strategy : string) : ndarray :=
  let df := X in
  let df :=
    if String.eqb strategy "mean" then fillna df (map nanmean (columns df))
    else if String.eqb strategy "median" then fillna df (map nanmedian (columns df))
    else if String.eqb strategy "drop" then dropna df
    else df in
  df.

(** [remove_outliers(X, threshold=3)] *)
Definition remove_outliers (X : ndarray) (threshold : PrimFloat.float) : ndarray :=
  let z_scores :=
    map (map (λ x, PrimFloat.abs ((x - array_mean X) / array_std X))) (rows X) in
  let mask := map (forallb (λ z, z <? threshold)) z_scores in
  boolean_index X mask.

(** The literal [1e-6]: the binary64 value closest to it. *)
Definition eps : PrimFloat.float := 0x1.0c6f7a0b5ed8dp-20.

(** [augment_features(X)] *)
Definition augment_features (X : ndarray) : outcome ndarray :=
  hr ← column X 0;
  ecg ← column X 1;
  emg ← column X 2;
  gsr ← column X 3;
  resp ← column X 4;
  let hr_ecg_ratio := zip_with (λ h e, h / (e + eps)) hr ecg in
  let emg_gsr_product := zip_with PrimFloat.mul emg gsr in
  let resp_hr_ratio := zip_with (λ r h, r / (h + eps)) resp hr in
  let augmented :=
    NdArray (ncols X + 3)
      (zip_with (λ r d, (r ++ d)%list) (rows X)
         (zip_with (λ a bc, a :: bc) hr_ecg_ratio
            (zip_with (λ b c, [b; c]) emg_gsr_product resp_hr_ratio))) in
  Return augmented.

End Preprocessing.

(* ================================================================= *)
(** ** scikit-learn's random forest, as far as the sources configure it *)

Module Sklearn.

(** The constructor parameters the sources set, with the library's
    defaults for the ones they leave out. *)
Record RandomForestClassifier := {
  n_estimators : Z;
  max_depth : option Z;
  min_samples_split : Z;
  min_samples_leaf : Z;
  random_state : option Z;
  n_jobs : option Z;
  class_weight : option string
}.

Inductive kwarg := KInt (z : Z) | KStr (s : string).

Definition kw_int (kwargs : list (string * kwarg)) (k : string) : option Z :=
  match Py.dict_get kwargs k with
  | Some (KInt z) => Some z
  | _ => None
  end.

Definition kw_str (kwargs : list (string * kwarg)) (k : string) : option string :=
  match Py.dict_get kwargs k with
  | Some (KStr s) => Some s
  | _ => None
  end.

(** The constructor called with keyword arguments; the defaults are
    [n_estimators=100],
    [max_depth=None], [min_samples_split=2], [min_samples_leaf=1],
    [random_state=None], [n_jobs=None], [class_weight=None]. *)
Definition RandomForestClassifier_new (kwargs : list (string * kwarg))
  : RandomForestClassifier :=
  {| n_estimators := default 100%Z (kw_int kwargs "n_estimators");
     max_depth := kw_int kwargs "max_depth";
     min_samples_split := default 2%Z (kw_int kwargs "min_samples_split");
     min_samples_leaf := default 1%Z (kw_int kwargs "min_samples_leaf");
     random_state := kw_int kwargs "random_state";
     n_jobs := kw_int kwargs "n_jobs";
     class_weight := kw_str kwargs "class_weight" |}.

End Sklearn.

(* ================================================================= *)
(** ** Files *)

Module Os.
Import Py.

(** The files that exist, with their contents, and the paths that can be
    opened for writing. *)
Record filesystem := Filesystem {
  files : gmap string string;
  can_write : string → bool
}.

(** [os.path.exists(path)] *)
Definition exists_ (fs : filesystem) (path : string) : bool :=
  bool_decide (is_Some (files fs !! path)).

(** [open(path, 'wb')]: the file is created or truncated. *)
Definition open_wb (fs : filesystem) (path : string) : outcome filesystem :=
  if can_write fs path
  then Return (Filesystem (<[path := ""]> (files fs)) (can_write fs))
  else Raise (Exn OSError ("[Errno 13] Permission denied: '" ++ path ++ "'")).

Definition write (fs : filesystem) (path : string) (content : string) : filesystem :=
  Filesystem (<[path := content]> (files fs)) (can_write fs).

(** [open(path, 'rb')] followed by a read of the whole file. *)
Definition read_rb (fs : filesystem) (path : string) : outcome string :=
  match files fs !! path with
  | Some content => Return content
  | None => Raise (Exn OSError ("[Errno 2] No such file or directory: '" ++ path ++ "'"))
  end.

End Os.

(* ================================================================= *)
(** ** [ml_logic/train.py] *)

Module Train.
Import Py Sklearn Os.

(** The classifier [ModelTrainer.train] constructs before fitting it. *)
Definition train_classifier (random_state : Z) : RandomForestClassifier :=
  RandomForestClassifier_new
    [("n_estimators", KInt 100);
     ("max_depth", KInt 15);
     ("min_samples_split", KInt 5);
     ("min_samples_leaf", KInt 2);
     ("random_state", KInt random_state);
     ("n_jobs", KInt (-1));
     ("class_weight", KStr "balanced")].

(** The preprocessing step of [main]: [X = preprocess_data(X)], on a heap
    without scaler objects.  The array it gives is what [train] is fitted
    on. *)
Definition main_preprocess (X : Preprocessing.ndarray)
  : Preprocessing.heap * outcome Preprocessing.pyobj :=
  Preprocessing.preprocess_data ∅ X None true.

Section Trainer.
(** Fitted model objects, and their serialisation by [pickle.dump]
    (which can fail). *)
Variable Model : Type.
Variable pickle_dumps : Model → outcome string.

Definition metrics_t := list (string * list (string * pyfloat)).

Record ModelTrainer := {
  model_save_path : string;
  model : option Model;
  metrics : metrics_t
}.

(** The trainer object, the files, and the log. *)
Record world := World {
  self : ModelTrainer;
  fs : filesystem;
  log : list string
}.

Definition logger (msg : string) (w : world) : world :=
  World (self w) (fs w) (log w ++ [msg]).

(** [with open(path, 'wb') as f: pickle.dump(m, f)] *)
Definition dump_to (fs : filesystem) (path : string) (m : Model)
  : filesystem * outcome unit :=
  match open_wb fs path with
  | Raise e => (fs, Raise e)
  | Return fs' =>
      match pickle_dumps m with
      | Raise e => (fs', Raise e)
      | Return bytes => (write fs' path bytes, Return ())
      end
  end.

(** [ModelTrainer.save_model] *)
Definition save_model (w : world) : world * bool :=
  match model (self w) with
  | None => (logger "No model to save. Train a model first." w, false)
  | Some m =>
      match dump_to (fs w) (model_save_path (self w)) m with
      | (fs', Return _) =>
          (logger ("Model saved to " ++ model_save_path (self w))
             (World (self w) fs' (log w)), true)
      | (fs', Raise e) =>
          (logger ("Error saving model: " ++ exn_msg e)
             (World (self w) fs' (log w)), false)
      end
  end.
End Trainer.

Arguments model_save_path {Model} _.
Arguments model {Model} _.
Arguments metrics {Model} _.
Arguments World {Model} _ _ _.
Arguments self {Model} _.
Arguments fs {Model} _.
Arguments log {Model} _.
Arguments logger {Model} _ _.
Arguments dump_to {Model} _ _ _ _.
Arguments save_model {Model} _ _.

End Train.

(* ================================================================= *)
(** ** [server/predict.py] *)

Module Predict.
Import Py Sklearn Os.

(** A loaded classifier, seen through the two methods the predictor calls
    on it: [model.predict(features)] gives one class index per row and
    [model.predict_proba(features)] one probability vector per row; either
    call may raise. *)
Record sk_model := {
  model_predict : list (list pyfloat) → outcome (list Z);
  model_predict_proba : list (list pyfloat) → outcome (list (list pyfloat))
}.

(** [self.feature_names] and [self.stress_classes]: assigned once, to
    literals, by the constructor. *)
Definition feature_names : list string :=
  ["heart_rate"; "ecg"; "emg"; "gsr"; "resp"].

Definition stress_classes : list string := ["low"; "medium"; "high"].

Record StressPredictor := {
  model_path : string;
  model : sk_model
}.

Section Loading.
(** [pickle.load] on the bytes of the artifact, the library's fitting
    algorithm, and the draws of numpy's global random generator: [rand k]
    is the k-th uniform draw of [np.random.rand], [choice k] the index
    the k-th draw of [np.random.choice] selects. *)
Variable pickle_load : string → outcome sk_model.
Variable rf_fit : RandomForestClassifier → list (list pyfloat) → list Z → sk_model.
Variable rand : nat → Q.
Variable choice : nat → nat.

Definition mock_classifier : RandomForestClassifier :=
  RandomForestClassifier_new
    [("n_estimators", KInt 100);
     ("random_state", KInt 42);
     ("n_jobs", KInt (-1))].

(** [np.random.rand(100, 5) * 100] *)
Definition X_mock : list (list pyfloat) :=
  map (λ i, map (λ j, Finite (rand (5 * i + j) * 100)) (seq 0 5)) (seq 0 100).

(** [np.random.choice([0, 1, 2], 100)] *)
Definition y_mock : list Z :=
  map (λ i, nth (choice i) [0; 1; 2]%Z 0%Z) (seq 0 100).

(** [StressPredictor._create_mock_model] *)
Definition _create_mock_model : sk_model :=
  rf_fit mock_classifier X_mock y_mock.

(** [StressPredictor.load_model]: the value it assigns to [self.model]. *)
Definition load_model (fs : filesystem) (path : string) : sk_model :=
  let attempt : outcome sk_model :=
    if negb (exists_ fs path)
    then Return _create_mock_model
    else content ← read_rb fs path; pickle_load content in
  match attempt with
  | Return m => m
  | Raise _ => _create_mock_model
  end.

(** [StressPredictor(model_path)] *)
Definition StressPredictor_new (fs : filesystem) (path : string) : StressPredictor :=
  {| model_path := path; model := load_model fs path |}.
End Loading.

Section Inference.
Variable str_to_float : string → option pyfloat.

(** [data[feature]] *)
Definition getitem (data : gmap string pyval) (k : string) : outcome pyval :=
  match data !! k with
  | Some v => Return v
  | None => Raise (Exn KeyError ("'" ++ k ++ "'"))
  end.

(** The loop of [validate_input] over the required features. *)
Fixpoint check_values (data : gmap string pyval) (features : list string)
  : outcome (bool * string) :=
  match features with
  | [] => Return (true, "")
  | feature :: rest =>
      match getitem data feature ≫= float str_to_float with
      | Return value =>
          if flt value fzero
          then Return (false, "Feature '" ++ feature ++ "' must be non-negative")
          else check_values data rest
      | Raise e =>
          if is_ValueError_or_TypeError e
          then Return (false, "Feature '" ++ feature ++ "' must be a number")
          else Raise e
      end
  end.

(** [StressPredictor.validate_input] *)
Definition validate_input (data : gmap string pyval) : outcome (bool * string) :=
  let required_features := feature_names in
  let missing_features :=
    filter (λ f, data !! f = None) required_features in
  match missing_features with
  | _ :: _ => Return (false, "Missing features: " ++ str_of_list missing_features)
  | [] => check_values data required_features
  end.

(** The dict returned on a validation or prediction failure. *)
Definition error_result (msg : string) : pydict :=
  [("error", VStr msg);
   ("stress_level", VNone);
   ("confidence", VFloat fzero)].

(** The dict comprehension over [enumerate(probabilities)]. *)
Fixpoint build_prob_dict (i : nat) (probabilities : list pyfloat)
    (acc : list (string * pyfloat)) : outcome (list (string * pyfloat)) :=
  match probabilities with
  | [] => Return acc
  | prob :: rest =>
      k ← list_index stress_classes (Z.of_nat i);
      build_prob_dict (S i) rest (dict_set acc k prob)
  end.

(** The [try] block of [predict], in two steps: the feature row built from
    [data], and what is done with it. *)
Definition extract_features (data : gmap string pyval) : outcome (list pyfloat) :=
  mapM (λ feature, getitem data feature ≫= float str_to_float) feature_names.

Definition respond (self : StressPredictor) (features : list pyfloat) : outcome pydict :=
  let features := [features] in
  prediction ← model_predict (model self) features ≫= index0;
  probabilities ← model_predict_proba (model self) features ≫= index0;
  stress_level ← list_index stress_classes prediction;
  confidence ← py_max probabilities;
  prob_dict ← build_prob_dict 0 probabilities [];
  Return
    [("stress_level", VStr stress_level);
     ("confidence", VFloat (round4 confidence));
     ("probabilities",
       VDict (map (λ kv, (fst kv, VFloat (round4 (snd kv)))) prob_dict));
     ("features_used", VList (map VStr feature_names))].

Definition infer (self : StressPredictor) (data : gmap string pyval) : outcome pydict :=
  features ← extract_features data;
  respond self features.

(** [StressPredictor.predict] *)
Definition predict (self : StressPredictor) (data : gmap string pyval) : outcome pydict :=
  '(is_valid, error_msg) ← validate_input data;
  if negb is_valid
  then Return (error_result error_msg)
  else
    try_except (infer self data)
      (λ e, Return (error_result ("Prediction failed: " ++ exn_msg e))).

(** [StressPredictor.batch_predict] *)
Definition batch_predict (self : StressPredictor) (data_list : list (gmap string pyval))
  : outcome (list pydict) :=
  mapM (predict self) data_list.
End Inference.

End Predict.

(* ================================================================= *)
(** ** [server/predict.py]: the predictor as the web layer uses it *)

Module PredictService.
Import Py Sklearn Os Predict.

(** [sub in s] on strings. *)
Fixpoint is_substring (sub s : string) : bool :=
  String.prefix sub s
  || match s with
     | EmptyString => false
     | String _ s' => is_substring sub s'
     end.

(** [k in data] for a string [k] and any JSON value [data]: a key of a
    dict, an item of a list, a substring of a string; the other values are
    not iterable. *)
Definition contains (data : pyval) (k : string) : outcome bool :=
  match data with
  | VDict d => Return (bool_decide (is_Some (dict_get d k)))
  | VList l =>
      Return (existsb (λ v, match v with VStr s => String.eqb s k | _ => false end) l)
  | VStr s => Return (is_substring k s)
  | VNone | VBool _ | VInt _ | VFloat _ =>
      Raise (Exn TypeError ("argument of type '" ++ type_name data ++ "' is not iterable"))
  end.

(** [data[k]] for a string [k] and any JSON value [data]. *)
Definition getitem_any (data : pyval) (k : string) : outcome pyval :=
  match data with
  | VDict d =>
      match dict_get d k with
      | Some v => Return v
      | None => Raise (Exn KeyError ("'" ++ k ++ "'"))
      end
  | VList _ => Raise (Exn TypeError "list indices must be integers or slices, not str")
  | VStr _ => Raise (Exn TypeError "string indices must be integers")
  | VNone | VBool _ | VInt _ | VFloat _ =>
      Raise (Exn TypeError ("'" ++ type_name data ++ "' object is not subscriptable"))
  end.

Section AnyValue.
Variable str_to_float : string → option pyfloat.

(** The loop of [validate_input], on any value. *)
Fixpoint check_values_any (data : pyval) (features : list string)
  : outcome (bool * string) :=
  match features with
  | [] => Return (true, "")
  | feature :: rest =>
      match getitem_any data feature ≫= float str_to_float with
      | Return value =>
          if flt value fzero
          then Return (false, "Feature '" ++ feature ++ "' must be non-negative")
          else check_values_any data rest
      | Raise e =>
          if is_ValueError_or_TypeError e
          then Return (false, "Feature '" ++ feature ++ "' must be a number")
          else Raise e
      end
  end.

(** [StressPredictor.validate_input] on whatever value it is handed. *)
Definition validate_input_any (data : pyval) : outcome (bool * string) :=
  let required_features := feature_names in
  present ← mapM (contains data) required_features;
  let missing_features :=
    omap (λ fp : string * bool, if snd fp then None else Some (fst fp))
         (zip required_features present) in
  match missing_features with
  | _ :: _ => Return (false, "Missing features: " ++ str_of_list missing_features)
  | [] => check_values_any data required_features
  end.

(** [StressPredictor.predict] on whatever value it is handed. *)
Definition predict_any (self : StressPredictor) (data : pyval) : outcome pydict :=
  '(is_valid, error_msg) ← validate_input_any data;
  if negb is_valid
  then Return (error_result error_msg)
  else
    try_except
      (features ← mapM (λ feature, getitem_any data feature ≫= float str_to_float)
                       feature_names;
       respond self features)
      (λ e, Return (error_result ("Prediction failed: " ++ exn_msg e))).

(** [StressPredictor.batch_predict] on a list of such values. *)
Definition batch_predict_any (self : StressPredictor) (data_list : list pyval)
  : outcome (list pydict) :=
  mapM (predict_any self) data_list.
End AnyValue.

Section Singleton.
Variable pickle_load : string → outcome sk_model.
Variable rf_fit : RandomForestClassifier → list (list pyfloat) → list Z → sk_model.
Variable rand : nat → Q.
Variable choice : nat → nat.

(** The absolute path of [../ml_logic/models/stress_model.pkl] seen from the
    directory of [predict.py]. *)
Variable default_model_path : string.

(** The constructor of [StressPredictor], with its optional argument and the
    environment: the argument, else [MODEL_PATH], else the default path. *)
Definition StressPredictor_init (environ : gmap string string) (fs : filesystem)
    (model_path : option string) : StressPredictor :=
  let model_path :=
    match model_path with
    | Some p => p
    | None =>
        match environ !! "MODEL_PATH" with
        | Some p => p
        | None => default_model_path
        end
    end in
  StressPredictor_new pickle_load rf_fit rand choice fs model_path.

(** [get_predictor], with the module variable [_predictor] passed in and
    out. *)
Definition get_predictor (_predictor : option StressPredictor)
    (environ : gmap string string) (fs : filesystem)
  : option StressPredictor * StressPredictor :=
  match _predictor with
  | None =>
      let p := StressPredictor_init environ fs None in
      (Some p, p)
  | Some p => (Some p, p)
  end.
End Singleton.

End PredictService.

(* ================================================================= *)
(** ** [server/app.py]: the two prediction routes *)

Module App.
Import Py Sklearn Os.

(** What a route reads of the request: [request.is_json],
    [request.content_type] and the outcome of [request.get_json()]. *)
Record request := Request {
  is_json : bool;
  content_type : option string;
  get_json : outcome pyval
}.

(** A response: the dict given to [jsonify] and the status code. *)
Definition response : Type := pydict * Z.

(** The truth value of a Python value. *)
Definition truthy (v : pyval) : bool :=
  match v with
  | VNone => false
  | VBool b => b
  | VInt z => negb (z =? 0)%Z
  | VFloat (Finite q) => negb (Qeq_bool q 0)
  | VFloat _ => true
  | VStr s => negb (String.eqb s "")
  | VList l => negb (bool_decide (l = []))
  | VDict d => negb (bool_decide (d = []))
  end.

(** [data.keys()] *)
Definition keys (data : pyval) : outcome (list string) :=
  match data with
  | VDict d => Return (map fst d)
  | _ => Raise (Exn (OtherException "AttributeError")
                  ("'" ++ type_name data
                   ++ "' object has no attribute 'keys'"))
  end.

(** [len(v)] *)
Definition len (v : pyval) : outcome nat :=
  match v with
  | VList l => Return (length l)
  | VDict d => Return (length d)
  | VStr s => Return (String.length s)
  | _ => Raise (Exn TypeError "object has no len()")
  end.

Definition isinstance_list (v : pyval) : bool :=
  match v with VList _ => true | _ => false end.

(** The double quote character. *)
Definition dq : string := String (Ascii.ascii_of_nat 34) EmptyString.

Section Routes.
Variable str_to_float : string → option pyfloat.

(** The module constant [FLASK_ENV] and the predictor held by the
    application. *)
Variable FLASK_ENV : string.
Variable predictor : Predict.StressPredictor.

(** The [except Exception] clause of both routes. *)
Definition on_exception (e : exn) : response :=
  ([("error", VStr "Internal server error");
    ("message", VStr (if String.eqb FLASK_ENV "development"
                      then exn_msg e else "An error occurred"))],
   500%Z).

(** The view of [/api/predict]. *)
Definition predict (req : request) : response :=
  let body : outcome response :=
    if negb (is_json req)
    then Return
           ([("error", VStr "Content-Type must be application/json");
             ("received", match content_type req with
                          | Some s => VStr s
                          | None => VNone
                          end)],
            400%Z)
    else
      data ← get_json req;
      _ ← keys data;
      result ← PredictService.predict_any str_to_float predictor data;
      if match dict_get result "error" with
         | Some v => truthy v
         | None => false
         end
      then Return (result, 400%Z)
      else
        _ ← PredictService.getitem_any (VDict result) "stress_level";
        Return (result, 200%Z) in
  match body with
  | Return r => r
  | Raise e => on_exception e
  end.

(** The view of [/api/batch-predict]. *)
Definition batch_predict (req : request) : response :=
  let body : outcome response :=
    if negb (is_json req)
    then Return ([("error", VStr "Content-Type must be application/json")], 400%Z)
    else
      data ← get_json req;
      has_data ← PredictService.contains data "data";
      is_list ← (if has_data : bool
                 then PredictService.getitem_any data "data"
                      ≫= λ items, Return (isinstance_list items)
                 else Return false) : outcome bool;
      if negb is_list
      then Return
             ([("error", VStr ("Request must contain " ++ dq ++ "data" ++ dq
                               ++ " key with a list of predictions"))],
              400%Z)
      else
        items ← PredictService.getitem_any data "data";
        n ← len items;
        if (n =? 0)%nat
        then Return ([("error", VStr "Data list cannot be empty")], 400%Z)
        else if (100 <? n)%nat
        then Return ([("error", VStr "Batch size limited to 100 predictions")], 400%Z)
        else
          results ← PredictService.batch_predict_any str_to_float predictor
                      (match items with VList l => l | _ => [] end);
          Return
            ([("count", VInt (Z.of_nat (length results)));
              ("predictions", VList (map VDict results))],
             200%Z) in
  match body with
  | Return r => r
  | Raise e => on_exception e
  end.
End Routes.

Section Startup.
Variable pickle_load : string → outcome Predict.sk_model.
Variable rf_fit : RandomForestClassifier → list (list pyfloat) → list Z → Predict.sk_model.
Variable rand : nat → Q.
Variable choice : nat → nat.
Variable default_model_path : string.

(** The state the hook works on: the attribute [app.predictor] (absent
    before the first request) and the module variable [_predictor] of
    [predict.py]. *)
Record app_state := AppState {
  app_predictor : option Predict.StressPredictor;
  global_predictor : option Predict.StressPredictor
}.

(** [before_request] *)
Definition before_request (st : app_state) (environ : gmap string string)
    (fs : filesystem) : app_state :=
  match app_predictor st with
  | Some _ => st
  | None =>
      let '(g, p) :=
        PredictService.get_predictor pickle_load rf_fit rand choice default_model_path
          (global_predictor st) environ fs in
      AppState (Some p) g
  end.
End Startup.

End App.

(* ================================================================= *)
(** ** [ml_logic/preprocessing.py] and [ml_logic/train.py]: the training run *)

Module TrainPipeline.
Import Py Sklearn Os Preprocessing Train.
#[local] Open Scope float_scope.

(** Two builtin exception classes the training run meets. *)
Definition FileNotFoundError : exn_class := OtherException "FileNotFoundError".
Definition NameError : exn_class := OtherException "NameError".

Definition is_FileNotFoundError (e : exn) : bool :=
  match exn_cls e with
  | OtherException name => String.eqb name "FileNotFoundError"
  | _ => false
  end.

(** [df.iloc[:, :-1].values]: every column but the last. *)
Definition iloc_features (df : ndarray) : ndarray :=
  NdArray (ncols df - 1) (map (take (ncols df - 1)) (rows df)).

(** [df.iloc[:, -1].values]: the last column; IndexError on a frame
    without columns. *)
Definition iloc_label (df : ndarray) : outcome (list PrimFloat.float) :=
  if (ncols df =? 0)%nat
  then Raise (Exn IndexError "single positional indexer is out-of-bounds")
  else Return (map (λ r, nth (ncols df - 1) r nan) (rows df)).

Section LoadData.
(** [pd.read_csv(path)], giving the table of the file or raising. *)
Variable read_csv : filesystem → string → outcome ndarray.

(** [load_data(data_path=None)].  The module does not import [os], so the
    default branch stops at the name [os]. *)
Definition load_data (fs : filesystem) (data_path : option string)
  : outcome (ndarray * list PrimFloat.float) :=
  match data_path with
  | None => Raise (Exn NameError "name 'os' is not defined")
  | Some data_path =>
      try_except
        (df ← read_csv fs data_path;
         let X := iloc_features df in
         y ← iloc_label df;
         Return (X, y))
        (λ e, if is_FileNotFoundError e
              then Raise (Exn FileNotFoundError ("Data file not found at " ++ data_path))
              else Raise e)
  end.
End LoadData.

(** The dict [train] returns. *)
Record train_result (Model : Type) := TrainResult {
  status : string;
  result_model : option Model;
  result_metrics : metrics_t;
  train_size : nat;
  test_size : nat
}.
Arguments TrainResult {Model} _ _ _ _ _.
Arguments status {Model} _.
Arguments result_model {Model} _.
Arguments result_metrics {Model} _.
Arguments train_size {Model} _.
Arguments test_size {Model} _.

Section Training.
(** Classifier objects; the object a constructor call gives; [fit], which
    works in place and so leaves the object in some state even when it
    raises; the stratified split; the metric computations of [_evaluate]
    and its report (confusion matrix, classification report, feature
    importances), which is only logged. *)
Variable Model : Type.
Variable new_classifier : RandomForestClassifier → Model.
Variable fit : Model → ndarray → list PrimFloat.float → Model * outcome unit.
Variable train_test_split :
  ndarray → list PrimFloat.float → PrimFloat.float → Z →
  outcome (ndarray * ndarray * list PrimFloat.float * list PrimFloat.float).
Variable compute_metrics :
  Model → ndarray → list PrimFloat.float → ndarray → list PrimFloat.float →
  outcome metrics_t.
Variable report : Model → ndarray → list PrimFloat.float → outcome unit.
Variable pickle_dumps : Model → outcome string.

(** The default save path, [os.path.dirname] and
    [os.makedirs(_, exist_ok=True)]. *)
Variable default_save_path : string.
Variable dirname : string → string.
Variable makedirs : filesystem → string → outcome filesystem.

(** The draws of numpy's generator in [main]. *)
Variable rand : nat → PrimFloat.float.
Variable choice : nat → nat.

Definition set_model (w : world Model) (m : option Model) : world Model :=
  World {| model_save_path := model_save_path (self w);
           model := m;
           metrics := metrics (self w) |}
        (fs w) (log w).

Definition set_metrics (w : world Model) (ms : metrics_t) : world Model :=
  World {| model_save_path := model_save_path (self w);
           model := model (self w);
           metrics := ms |}
        (fs w) (log w).

(** [ModelTrainer(model_save_path=None)] *)
Definition ModelTrainer_init (fs : filesystem) (model_save_path : option string)
  : outcome (world Model) :=
  let model_save_path := default default_save_path model_save_path in
  let self := {| Train.model_save_path := model_save_path;
                 model := None;
                 metrics := [] |} in
  let model_dir := dirname model_save_path in
  if String.eqb model_dir ""
  then Return (World self fs [])
  else fs ← makedirs fs model_dir; Return (World self fs []).

(** [ModelTrainer._evaluate] *)
Definition _evaluate (w : world Model)
    (X_train : ndarray) (y_train : list PrimFloat.float)
    (X_test : ndarray) (y_test : list PrimFloat.float) : world Model * outcome unit :=
  match model (self w) with
  | None =>
      (w, Raise (Exn (OtherException "AttributeError")
                   "'NoneType' object has no attribute 'predict'"))
  | Some m =>
      match compute_metrics m X_train y_train X_test y_test with
      | Raise e => (w, Raise e)
      | Return ms => (set_metrics w ms, report m X_test y_test)
      end
  end.

(** [ModelTrainer.train(X, y, test_size=0.2, random_state=42)] *)
Definition train (w : world Model) (X : ndarray) (y : list PrimFloat.float)
    (test_size : PrimFloat.float) (random_state : Z)
  : world Model * outcome (train_result Model) :=
  match train_test_split X y test_size random_state with
  | Raise e => (w, Raise e)
  | Return (X_train, X_test, y_train, y_test) =>
      let clf := new_classifier (train_classifier random_state) in
      let w := set_model w (Some clf) in
      let '(clf, fitted) := fit clf X_train y_train in
      let w := set_model w (Some clf) in
      match fitted with
      | Raise e => (w, Raise e)
      | Return _ =>
          match _evaluate w X_train y_train X_test y_test with
          | (w, Raise e) => (w, Raise e)
          | (w, Return _) =>
              (w, Return (TrainResult "success" (model (self w)) (metrics (self w))
                            (nrows X_train) (nrows X_test)))
          end
      end
  end.

(** The literal [0.2]: the binary64 value closest to it. *)
Definition default_test_size : PrimFloat.float := 0x1.999999999999ap-3.

(** The synthetic data of [main]: [np.random.rand(200, 5) * 100] and
    [np.random.choice([0, 1, 2], 200)]. *)
Definition X_synthetic : ndarray :=
  NdArray 5 (map (λ i, map (λ j, rand (5 * i + j) * 100) (seq 0 5)) (seq 0 200)).

Definition y_synthetic : list PrimFloat.float :=
  map (λ i, nth (choice i) [0; 1; 2] 0) (seq 0 200).

Variable read_csv : filesystem → string → outcome ndarray.

(** [main]: the files it leaves and how it ends. *)
Definition main (fs0 : filesystem) : filesystem * outcome unit :=
  let data :=
    try_except (load_data read_csv fs0 None)
      (λ e, if is_FileNotFoundError e
            then Return (X_synthetic, y_synthetic)
            else Raise e) in
  match data with
  | Raise e => (fs0, Raise e)
  | Return (X, y) =>
      match snd (main_preprocess X) with
      | Raise e => (fs0, Raise e)
      | Return (ObjArray X) =>
          match ModelTrainer_init fs0 None with
          | Raise e => (fs0, Raise e)
          | Return trainer =>
              match train trainer X y default_test_size 42 with
              | (trainer, Raise e) => (fs trainer, Raise e)
              | (trainer, Return result) =>
                  if String.eqb (status result) "success"
                  then (fs (fst (save_model pickle_dumps trainer)), Return ())
                  else (fs trainer, Return ())
              end
          end
      | Return _ => (fs0, Raise (Exn TypeError "not an array"))
      end
  end.
End Training.

End TrainPipeline.

(* ================================================================= *)
(** * Sample inputs and the notions of the specification *)

(* ================================================================= *)
(** ** For preprocessing *)

Module PreprocessingSpec.
Import Py Preprocessing.
#[local] Open Scope float_scope.

(** Two features, three samples, with missing entries. *)
Definition X_missing : ndarray :=
  NdArray 2 [[1; nan]; [3; 10]; [nan; 20]].


(** A constant array. *)
Definition X_const : ndarray := NdArray 2 [[1; 1]; [1; 1]].

(** Eight entries whose sum depends on the order of the additions: [2^53]
    followed by seven ones. *)
Definition X_wide : ndarray :=
  NdArray 2 [[9007199254740992; 1]; [1; 1]; [1; 1]; [1; 1]].

(** One sample with six columns, one with four. *)
Definition X_six : ndarray := NdArray 6 [[75; 0.5; 0.25; 0.125; 0.5; 9]].
Definition X_four : ndarray := NdArray 4 [[75; 0.5; 0.25; 0.125]].

(** Two samples, two features, the second one constant. *)
Definition X_train : ndarray := NdArray 2 [[1; 10]; [3; 10]].

(** The mean and the standard deviation of a sequence of entries, summed
    left to right: [sum / n] and [sqrt (sum ((x - mean)^2) / n)]. *)
Definition mean (l : list PrimFloat.float) : PrimFloat.float :=
  fsum l / float_of_nat (length l).

Definition var (l : list PrimFloat.float) : PrimFloat.float :=
  let m := mean l in
  mean (map (λ x, (x - m) * (x - m)) l).

Definition std (l : list PrimFloat.float) : PrimFloat.float := PrimFloat.sqrt (var l).



(** The z-score the code computes for an entry: against the mean and the
    standard deviation of all the entries of the array. *)
Definition global_zscore (X : ndarray) (x : PrimFloat.float) : PrimFloat.float :=
  PrimFloat.abs ((x - array_mean X) / array_std X).

(** The three derived features of a sample. *)
Definition derived (r : list PrimFloat.float) : list PrimFloat.float :=
  let hr := nth 0 r nan in
  let ecg := nth 1 r nan in
  let emg := nth 2 r nan in
  let gsr := nth 3 r nan in
  let resp := nth 4 r nan in
  [hr / (ecg + eps); emg * gsr; resp / (hr + eps)].

End PreprocessingSpec.

(* ================================================================= *)
(** ** For training *)

Module TrainSpec.
Import Py Sklearn Os Train.

(** Saving meets an I/O failure: the file cannot be opened for writing, or
    serialising the model fails. *)
Definition io_failure {Model : Type} (pickle_dumps : Model → outcome string)
    (w : world Model) (m : Model) : Prop :=
  can_write (fs w) (model_save_path (self w)) = false
  ∨ ∃ e, pickle_dumps m = Raise e.

(** A trainer holding a model (a number stands for it), on a file system
    that refuses every write. *)
Definition read_only_world : world nat :=
  World {| model_save_path := "models/stress_model.pkl";
           model := Some 7%nat;
           metrics := [] |}
        (Filesystem ∅ (λ _, false))
        [].

(** A serialisation that succeeds. *)
Definition dumps_ok (m : nat) : outcome string := Return "".

(** The error class the specification names for a failed save; the source
    defines no such class. *)
Definition PersistError : exn_class := OtherException "PersistError".

(** [persist] as the specification words it: the artifact is written, or
    the call fails with PersistError. *)
Definition persist {Model : Type} (pickle_dumps : Model → outcome string)
    (w : world Model) : outcome bool :=
  match model (self w) with
  | None => Return false
  | Some m =>
      match snd (dump_to pickle_dumps (fs w) (model_save_path (self w)) m) with
      | Return _ => Return true
      | Raise e => Raise (Exn PersistError (exn_msg e))
      end
  end.

(** How a call of [save_model] ends for its caller: every path of the
    method returns, the [except Exception] clause included. *)
Definition save_model_call {Model : Type} (pickle_dumps : Model → outcome string)
    (w : world Model) : outcome bool :=
  Return (snd (save_model pickle_dumps w)).

End TrainSpec.

(* ================================================================= *)
(** ** For inference *)

Module PredictSpec.
Import Py Sklearn Os Predict.

(** Finite floats, their value, and the sum of a sequence of floats (0
    stands for a value that is not finite). *)
Definition is_finite (x : pyfloat) : Prop :=
  match x with Finite _ => True | _ => False end.

Definition finite_value (x : pyfloat) : Q :=
  match x with Finite q => q | _ => 0 end.

Definition total (l : list pyfloat) : Q :=
  foldr Qplus 0%Q (map finite_value l).

(** The fourth-decimal integer of a rounded value. *)
Definition rounded (q : Q) : Z := round_half_even (q * 10000).

(** The request of the test suite. *)
Definition sample : gmap string pyval :=
  {[ "heart_rate" := VInt 75;
     "ecg" := VFloat (Finite 0.5);
     "emg" := VFloat (Finite 0.3);
     "gsr" := VFloat (Finite 0.2);
     "resp" := VFloat (Finite 0.4) ]}.

(** The feature row of that request. *)
Definition raw_features : list pyfloat :=
  [Finite 75; Finite 0.5; Finite 0.3; Finite 0.2; Finite 0.4].

(** The same request with a heart rate that is a negative integer of 401
    digits. *)
Definition huge_negative : gmap string pyval :=
  <["heart_rate" := VInt (- 10 ^ 400)]> sample.

(** A request whose values are a numeric string, booleans and numbers. *)
Definition coerced_sample : gmap string pyval :=
  {[ "heart_rate" := VStr "75";
     "ecg" := VBool true;
     "emg" := VBool false;
     "gsr" := VFloat (Finite 0.25);
     "resp" := VInt 0 ]}.


(** A model that gives every class the probability 1/3 and predicts
    'medium'. *)
Definition uniform_probabilities : list pyfloat :=
  [Finite (1 # 3); Finite (1 # 3); Finite (1 # 3)].

(** The binary64 value nearest to 1/3, which is [(2^54 - 1) / (3 * 2^54)],
    and a model that gives it to each class: probabilities as a classifier
    returns them, summing to [1 - 2^-54]. *)
Definition third : Q := 6004799503160661 # 18014398509481984.

Definition binary64_thirds : list pyfloat :=
  [Finite third; Finite third; Finite third].

Definition thirds_model : sk_model :=
  {| model_predict := λ X, Return (map (λ _, 1%Z) X);
     model_predict_proba := λ X, Return (map (λ _, binary64_thirds) X) |}.

(** A request whose values are binary64 numbers, and its feature row. *)
Definition dyadic_sample : gmap string pyval :=
  {[ "heart_rate" := VInt 75;
     "ecg" := VFloat (Finite 0.5);
     "emg" := VFloat (Finite 0.25);
     "gsr" := VFloat (Finite 0.125);
     "resp" := VFloat (Finite 0.5) ]}.

Definition dyadic_features : list pyfloat :=
  [Finite 75; Finite 0.5; Finite 0.25; Finite 0.125; Finite 0.5].

Definition uniform_model : sk_model :=
  {| model_predict := λ X, Return (map (λ _, 1%Z) X);
     model_predict_proba := λ X, Return (map (λ _, uniform_probabilities) X) |}.

(** A model fitted on standardised features: 'high' when the standardised
    heart rate is above 1, that is more than one standard deviation above the
    training mean, and 'low' otherwise. *)
Definition stump_model : sk_model :=
  {| model_predict :=
       λ X, Return (map (λ r, if fgt (nth 0 r NaN) (Finite 1) then 2%Z else 0%Z) X);
     model_predict_proba :=
       λ X, Return (map (λ r, if fgt (nth 0 r NaN) (Finite 1)
                              then [Finite 0; Finite 0; Finite 1]
                              else [Finite 1; Finite 0; Finite 0]) X) |}.

Definition predictor (m : sk_model) : StressPredictor :=
  {| model_path := "ml_logic/models/stress_model.pkl"; model := m |}.

(** The prediction dict for a level, a confidence and three probabilities. *)
Definition prediction_result (level : string) (confidence : Q) (low medium high : Q)
  : pydict :=
  [("stress_level", VStr level);
   ("confidence", VFloat (Finite confidence));
   ("probabilities",
     VDict [("low", VFloat (Finite low));
            ("medium", VFloat (Finite medium));
            ("high", VFloat (Finite high))]);
   ("features_used", VList (map VStr feature_names))].

(** What the prediction of the uniform model looks like. *)
Definition uniform_result : pydict :=
  prediction_result "medium" 0.3333 0.3333 0.3333 0.3333.

(** The scaler of the specification: the per-feature mean and standard
    deviation fitted on the training data, and their application to a
    feature row. *)
Record ScalingParameters := { mean_ : list Q; scale_ : list Q }.

Definition standardise (x : pyfloat) (m s : Q) : pyfloat :=
  match x with
  | Finite q => Finite ((q - m) / s)
  | _ => x
  end.

Definition apply_scaling (p : ScalingParameters) (features : list pyfloat) : list pyfloat :=
  zip_with (λ x ms, standardise x (fst ms) (snd ms)) features (zip (mean_ p) (scale_ p)).

(** Parameters as a training run could have fitted them: a mean heart rate
    of 70 with standard deviation 10. *)
Definition training_scaling : ScalingParameters :=
  {| mean_ := [70; 0.5; 0.3; 0.2; 0.4]; scale_ := [10; 0.1; 0.1; 0.1; 0.1] |}%Q.

(** [float(v)] is defined and not negative. *)
Definition accepts (str_to_float : string → option pyfloat) (v : pyval) : bool :=
  match float str_to_float v with
  | Return x => negb (flt x fzero)
  | Raise _ => false
  end.

(** There is a value under key [f], and it is accepted. *)
Definition accepted_at (str_to_float : string → option pyfloat)
    (data : gmap string pyval) (f : string) : bool :=
  match data !! f with
  | Some v => accepts str_to_float v
  | None => false
  end.

(** No integer of the request is beyond the range of a float. *)
Definition no_overflow (data : gmap string pyval) : Prop :=
  ∀ f z, data !! f = Some (VInt z) → (Z.abs z < float_int_bound)%Z.

(** The handler of the [try] block of [predict]. *)
Definition on_failure (e : exn) : outcome pydict :=
  Return (error_result ("Prediction failed: " ++ exn_msg e)).

(** The probabilities and the confidence of a result dict. *)
Definition returned_probabilities (d : pydict) : list pyfloat :=
  match dict_get d "probabilities" with
  | Some (VDict ps) =>
      omap (λ kv, match snd kv with VFloat x => Some x | _ => None end) ps
  | _ => []
  end.

Definition returned_confidence (d : pydict) : option pyfloat :=
  match dict_get d "confidence" with
  | Some (VFloat x) => Some x
  | _ => None
  end.

(** The classifier of the trainer with its class weighting taken out. *)
Definition without_class_weight (c : RandomForestClassifier) : RandomForestClassifier :=
  {| n_estimators := n_estimators c;
     max_depth := max_depth c;
     min_samples_split := min_samples_split c;
     min_samples_leaf := min_samples_leaf c;
     random_state := random_state c;
     n_jobs := n_jobs c;
     class_weight := None |}.

(** The artifact is absent, or reading and unpickling it raises. *)
Definition artifact_unusable (pickle_load : string → outcome sk_model)
    (fs : filesystem) (path : string) : Prop :=
  exists_ fs path = false ∨ ∃ e, read_rb fs path ≫= pickle_load = Raise e.

(** An unpickler that rejects its input, a fitting algorithm that gives the
    uniform model, a generator that draws 1/2 and cycles through the
    indices, and a file system whose artifact is not a pickle. *)
Definition broken_pickle (content : string) : outcome sk_model :=
  Raise (Exn PicklingError "invalid load key").

Definition fit_uniform (c : RandomForestClassifier) (X : list (list pyfloat)) (y : list Z)
  : sk_model := uniform_model.

Definition rand_half (k : nat) : Q := 1 # 2.

Definition choice_cycle (k : nat) : nat := k mod 3.

Definition garbage_fs : filesystem :=
  Filesystem {[ "model.pkl" := "garbage" ]} (λ _, true).

End PredictSpec.

(* ================================================================= *)
(** ** For the rest of the code *)

Module ServiceSpec.
Import Py Sklearn Os Preprocessing Predict PreprocessingSpec PredictSpec.

(** A float in the unit interval. *)
Definition in_unit (x : pyfloat) : Prop :=
  match x with
  | Finite q => (0 <= q <= 1)%Q
  | _ => False
  end.

(** The request of the test suite with a negative ECG value, and with an
    ECG value that is not a number. *)
Definition negative_ecg : gmap string pyval := <["ecg" := VInt (-1)]> sample.
Definition text_ecg : gmap string pyval := <["ecg" := VStr "abc"]> sample.

(** The request of the test suite without its last two keys. *)
Definition two_missing : gmap string pyval := delete "gsr" (delete "resp" sample).

(** The request of the test suite as the JSON object the web layer
    receives. *)
Definition sample_json : list (string * pyval) :=
  [("heart_rate", VInt 75);
   ("ecg", VFloat (Finite 0.5));
   ("emg", VFloat (Finite 0.3));
   ("gsr", VFloat (Finite 0.2));
   ("resp", VFloat (Finite 0.4))].

(** A model whose [predict] raises, one that answers the class index [i],
    with its three probabilities, and one that answers four
    probabilities. *)
Definition failing_model : sk_model :=
  {| model_predict := λ _, Raise (Exn ValueError "X has 5 features, but the model expects 8");
     model_predict_proba := λ X, Return (map (λ _, uniform_probabilities) X) |}.

Definition index_model (i : Z) : sk_model :=
  {| model_predict := λ X, Return (map (λ _, i) X);
     model_predict_proba := λ X, Return (map (λ _, uniform_probabilities) X) |}.

(** Every row of the array has as many entries as the array has columns. *)
Definition well_formed (X : ndarray) : Prop :=
  Forall (λ r, length r = ncols X) (rows X).

(** A row without NaN. *)
Definition complete (r : list PrimFloat.float) : Prop :=
  Forall (λ x, isnan x = false) r.

(** A JSON request carrying the given body. *)
Definition json_request (body : pyval) : App.request :=
  App.Request true (Some "application/json") (Return body).

(** A scalar JSON value: not a dict, a list or a string. *)
Definition is_scalar (v : pyval) : Prop :=
  match v with
  | VNone | VBool _ | VInt _ | VFloat _ => True
  | _ => False
  end.

(** A file system that accepts every write, and a table of two samples with
    two features and a label. *)
Definition writable_fs : filesystem := Filesystem ∅ (λ _, true).

Definition table : ndarray :=
  NdArray 3 [[1; 10; 0]; [3; 10; 2]]%float.

(** A value that [float] converts without overflow. *)
Definition in_float_range (v : pyval) : Prop :=
  match v with
  | VInt z => (Z.abs z < float_int_bound)%Z
  | _ => True
  end.

(** JSON objects with a negative ECG value and with a heart rate that is a
    negative integer of 401 digits. *)
Definition negative_json : list (string * pyval) :=
  [("heart_rate", VInt 75);
   ("ecg", VInt (-1));
   ("emg", VFloat (Finite 0.3));
   ("gsr", VFloat (Finite 0.2));
   ("resp", VFloat (Finite 0.4))].

Definition huge_json : list (string * pyval) :=
  [("heart_rate", VInt (- 10 ^ 400));
   ("ecg", VFloat (Finite 0.5));
   ("emg", VFloat (Finite 0.3));
   ("gsr", VFloat (Finite 0.2));
   ("resp", VFloat (Finite 0.4))].

(** The body of a batch request with a valid and an invalid object. *)
Definition batch_json : list (string * pyval) :=
  [("data", VList (map VDict [sample_json; negative_json]))].

(** The error result of the request with the negative ECG value. *)
Definition negative_result : pydict :=
  error_result "Feature 'ecg' must be non-negative".

(** A trainer holding the uniform model, a pickler and an unpickler that
    gives that model back. *)
Definition trained_service : Train.world sk_model :=
  Train.World {| Train.model_save_path := "models/stress_model.pkl";
                 Train.model := Some uniform_model;
                 Train.metrics := [] |}
              writable_fs [].

Definition dumps_model (m : sk_model) : outcome string := Return "pickled".

Definition loads_uniform (bytes : string) : outcome sk_model := Return uniform_model.

(** A reader that finds [table] in every file. *)
Definition read_table (fs : filesystem) (path : string) : outcome ndarray :=
  Return table.

(** Classifiers counted by the number of fits they have seen; a split that
    uses the whole data on both sides; a fit that fails. *)
Definition stub_new (c : RandomForestClassifier) : nat := 0.

Definition stub_fit (m : nat) (X : ndarray) (y : list PrimFloat.float)
  : nat * outcome unit := (S m, Return ()).

Definition stub_fit_failing (m : nat) (X : ndarray) (y : list PrimFloat.float)
  : nat * outcome unit := (S m, Raise (Exn ValueError "Unknown label type")).

Definition stub_split (X : ndarray) (y : list PrimFloat.float)
    (test_size : PrimFloat.float) (random_state : Z)
  : outcome (ndarray * ndarray * list PrimFloat.float * list PrimFloat.float) :=
  Return (X, X, y, y).

Definition stub_metrics (m : nat) (X_train : ndarray) (y_train : list PrimFloat.float)
    (X_test : ndarray) (y_test : list PrimFloat.float) : outcome Train.metrics_t :=
  Return [].

Definition stub_report (m : nat) (X : ndarray) (y : list PrimFloat.float)
  : outcome unit := Return ().

(** A trainer that holds the model 7 from an earlier run, and what a run of
    [train] on it gives. *)
Definition old_trainer : Train.world nat :=
  Train.World {| Train.model_save_path := "models/stress_model.pkl";
                 Train.model := Some 7%nat;
                 Train.metrics := [] |}
              writable_fs [].

Definition new_trainer : Train.world nat :=
  Train.World {| Train.model_save_path := "models/stress_model.pkl";
                 Train.model := Some 1%nat;
                 Train.metrics := [] |}
              writable_fs [].

Definition training_result : TrainPipeline.train_result nat :=
  TrainPipeline.TrainResult "success" (Some 1%nat) [] 2 2.

Definition y_train : list PrimFloat.float := [0; 1]%float.

(** A heap with one scaler of the caller, before and after it was fitted
    on [X_train], and the scaled array. *)
Definition scaler_heap : heap := {[ 0%nat := StandardScaler_new ]}.

Definition fitted_heap : heap :=
  {[ 0%nat := {| fitted := Some ([2; 10], [1; 1])%float |} ]}.

Definition scaled_train : ndarray := NdArray 2 [[-1; 0]; [1; 0]]%float.

End ServiceSpec.

(* ================================================================= *)
(** * Properties *)

(* ================================================================= *)
(** ** Preprocessing *)

Module PreprocessingFacts.
Import Py Preprocessing PreprocessingSpec.
#[local] Open Scope float_scope.

(** *** List lemmas *)

Lemma zip_with_map_same {A B C D} (f : B → C → D) (g : A → B) (h : A → C) (l : list A) :
  zip_with f (map g l) (map h l) = map (λ a, f (g a) (h a)) l.
Proof.
  induction l as [|a l IH]; simpl; [reflexivity|].
  now rewrite IH.
Qed.

Lemma zip_with_map_r_same {A C D} (f : A → C → D) (h : A → C) (l : list A) :
  zip_with f l (map h l) = map (λ a, f a (h a)) l.
Proof.
  induction l as [|a l IH]; simpl; [reflexivity|].
  now rewrite IH.
Qed.



(** *** handle_missing_values *)

(** C10.  A strategy other than 'mean', 'median' and 'drop' is not rejected:
    the call returns its input array as it is, same shape and same entries,
    and raises nothing. *)
Theorem handle_missing_values_unknown_strategy (X : ndarray) (strategy : string) :
  strategy ≠ "mean" → strategy ≠ "median" → strategy ≠ "drop" →
  handle_missing_values X strategy = X.
Proof.
  intros Hmean Hmedian Hdrop.
  unfold handle_missing_values.
  destruct (String.eqb_spec strategy "mean") as [->|_]; [contradiction|].
  destruct (String.eqb_spec strategy "median") as [->|_]; [contradiction|].
  destruct (String.eqb_spec strategy "drop") as [->|_]; [contradiction|].
  reflexivity.
Qed.

Lemma handle_missing_values_unknown_strategy_witness :
  "zero" ≠ "mean" ∧ "zero" ≠ "median" ∧ "zero" ≠ "drop" ∧
  handle_missing_values X_missing "zero" = X_missing.
Proof.
  split; [discriminate|]. split; [discriminate|]. split; [discriminate|].
  apply (handle_missing_values_unknown_strategy X_missing "zero"); discriminate.
Defined.

(** The three known strategies do change the same array. *)
Example handle_missing_values_mean :
  handle_missing_values X_missing "mean" = NdArray 2 [[1; 15]; [3; 10]; [2; 20]].
Proof. vm_compute. reflexivity. Qed.

Example handle_missing_values_median :
  handle_missing_values X_missing "median" = NdArray 2 [[1; 15]; [3; 10]; [2; 20]].
Proof. vm_compute. reflexivity. Qed.

Example handle_missing_values_drop :
  handle_missing_values X_missing "drop" = NdArray 2 [[3; 10]].
Proof. vm_compute. reflexivity. Qed.

(** *** remove_outliers *)


(** On a constant array the standard deviation is 0, every z-score is
    [0/0 = nan], no comparison holds and no row is kept. *)
Example remove_outliers_constant_array :
  remove_outliers X_const 3 = NdArray 2 [].
Proof. vm_compute. reflexivity. Qed.

(** The recursion of the pairwise sum never runs out of fuel: any two
    amounts of fuel that are at least the length of the run give the same
    sum. *)
Lemma pairwise_sum_fuel_enough (fuel fuel' : nat) (l : list PrimFloat.float) :
  (length l ≤ fuel)%nat → (length l ≤ fuel')%nat →
  pairwise_sum_fuel fuel l = pairwise_sum_fuel fuel' l.
Proof.
  revert fuel' l. induction fuel as [|fuel IH]; intros fuel' l H H'.
  - destruct l; [|simpl in H; lia]. destruct fuel'; reflexivity.
  - destruct fuel' as [|fuel'].
    + destruct l; [reflexivity | simpl in H'; lia].
    + cbn [pairwise_sum_fuel].
      destruct (length l <? 8)%nat; [reflexivity|].
      destruct (Nat.leb_spec (length l) 128) as [|Hlong]; [reflexivity|].
      pose proof (Nat.div_mod_eq (length l) 2) as H1.
      pose proof (Nat.mod_upper_bound (length l) 2 ltac:(lia)) as H2.
      pose proof (Nat.mod_upper_bound (length l / 2) 8 ltac:(lia)) as H3.
      f_equal; apply IH; rewrite ?length_take, ?length_drop; lia.
Qed.

(** The three cases of the pairwise sum. *)
Lemma pairwise_sum_cases (l : list PrimFloat.float) :
  pairwise_sum l
  = if (length l <? 8)%nat then fsum l
    else if (length l <=? 128)%nat then block_sum l
    else let n2 := (length l / 2 - (length l / 2) mod 8)%nat in
         pairwise_sum (take n2 l) + pairwise_sum (drop n2 l).
Proof.
  unfold pairwise_sum at 1.
  rewrite (pairwise_sum_fuel_enough (length l) (S (length l)) l) by lia.
  cbn [pairwise_sum_fuel].
  destruct (length l <? 8)%nat; [reflexivity|].
  destruct (Nat.leb_spec (length l) 128) as [|Hlong]; [reflexivity|].
  pose proof (Nat.div_mod_eq (length l) 2) as H1.
  pose proof (Nat.mod_upper_bound (length l) 2 ltac:(lia)) as H2.
  pose proof (Nat.mod_upper_bound (length l / 2) 8 ltac:(lia)) as H3.
  cbv zeta. unfold pairwise_sum.
  f_equal; apply pairwise_sum_fuel_enough;
    rewrite ?length_take, ?length_drop; lia.
Qed.

(** The order of the additions shows in the result.  Over the eight
    entries of [X_wide] the accumulators are added as a tree,
    [((2^53 + 1) + 2) + 4 = 2^53 + 6], where adding left to right stays at
    [2^53]. *)
Example array_mean_pairwise :
  array_mean X_wide = 1125899906842624.75
  ∧ mean (concat (rows X_wide)) = 1125899906842624.
Proof. split; vm_compute; reflexivity. Qed.

(** It reaches the rows kept.  With the z-score of the entry 1 of [X_wide]
    as the threshold, no entry 1 is below it and no row is kept; against the
    mean and the standard deviation summed left to right the same entry
    would be below the threshold. *)
Example remove_outliers_sum_order :
  global_zscore X_wide 1 = 0x1.83091e6a7f7e6p-2
  ∧ remove_outliers X_wide 0x1.83091e6a7f7e6p-2 = NdArray 2 []
  ∧ (PrimFloat.abs ((1 - mean (concat (rows X_wide))) / std (concat (rows X_wide)))
       <? 0x1.83091e6a7f7e6p-2) = true.
Proof. repeat split; vm_compute; reflexivity. Qed.




(** *** augment_features *)

(** C6, as stated, fails: an array with six columns is not rejected; its
    first five columns are read and three columns are appended. *)
Lemma augment_features_six_columns :
  ncols X_six = 6%nat ∧
  augment_features X_six
  = Return (NdArray 9 [[75; 0.5; 0.25; 0.125; 0.5; 9;
                        75 / (0.5 + eps); 0.03125; 0.5 / (75 + eps)]]).
Proof. split; vm_compute; reflexivity. Qed.

(** C6, amended.  The call fails (IndexError, at the first of the columns
    0 to 4 that the array does not have) exactly when the array has fewer
    than five columns; otherwise it appends to every row the three derived
    features computed from the first five entries of that row. *)
Theorem augment_features_spec (X : ndarray) :
  augment_features X =
  if (ncols X <? 5)%nat
  then Raise (Exn IndexError
                ("index " ++ str_of_nat (ncols X)
                 ++ " is out of bounds for axis 1 with size " ++ str_of_nat (ncols X)))
  else Return (NdArray (ncols X + 3) (map (λ r, (r ++ derived r)%list) (rows X))).
Proof.
  unfold augment_features, column.
  destruct (ncols X) as [|[|[|[|[|n]]]]]; try reflexivity.
  simpl. do 2 f_equal.
  rewrite !zip_with_map_same, zip_with_map_r_same.
  reflexivity.
Qed.

Example augment_features_four_columns :
  augment_features X_four
  = Raise (Exn IndexError "index 4 is out of bounds for axis 1 with size 4").
Proof. vm_compute. reflexivity. Qed.

(** *** preprocess_data *)

(** C7, at the call of the training script ([scaler=None], [fit=True]): the
    scaler is created inside the call, fitted (per-column mean [2; 10], scale
    [1; 1]) and left in the heap at a location the caller never gets; the
    value returned is the scaled array alone, not the pair the docstring and
    the specification announce. *)
Theorem preprocess_data_returns_array_only :
  preprocess_data ∅ X_train None true
  = ({[ 0%nat := {| fitted := Some ([2; 10], [1; 1]) |} ]},
     Return (ObjArray (NdArray 2 [[-1; 0]; [1; 0]]))).
Proof. vm_compute. reflexivity. Qed.

(** Whatever the arguments, a returned value is an array. *)
Lemma preprocess_data_result_shape (h : heap) (X : ndarray) (scaler : option loc) (fit : bool) :
  match snd (preprocess_data h X scaler fit) with
  | Return (ObjArray _) | Raise _ => True
  | Return _ => False
  end.
Proof.
  unfold preprocess_data.
  destruct scaler as [l|]; destruct fit; simpl.
  - unfold fit_transform. destruct (scaler_fit X); simpl; [|exact I].
    destruct (scaler_transform _ _); exact I.
  - destruct (transform _ _ _); exact I.
  - unfold fit_transform. destruct (scaler_fit X); simpl; [|exact I].
    destruct (scaler_transform _ _); exact I.
  - destruct (transform _ _ _); exact I.
Qed.

(** With [fit=False] and a scaler of the caller the heap is left as it was:
    the parameters are read, not recomputed, and a second call gives the same
    result. *)
Lemma preprocess_data_no_refit (h : heap) (X : ndarray) (l : loc) :
  fst (preprocess_data h X (Some l) false) = h ∧
  preprocess_data (fst (preprocess_data h X (Some l) false)) X (Some l) false
  = preprocess_data h X (Some l) false.
Proof. split; reflexivity. Qed.

(** With [fit=False] and no scaler the fresh scaler is not fitted and the
    call raises. *)
Example preprocess_data_unfitted :
  snd (preprocess_data ∅ X_train None false)
  = Raise (Exn NotFittedError
             ("This StandardScaler instance is not fitted yet. Call 'fit' with "
              ++ "appropriate arguments before using this estimator.")).
Proof. vm_compute. reflexivity. Qed.

(** The preprocessing step of the training script keeps the scaled array
    and nothing of the scaler. *)
Example main_preprocess_keeps_no_scaler :
  snd (Train.main_preprocess X_train)
  = Return (ObjArray (NdArray 2 [[-1; 0]; [1; 0]])).
Proof. vm_compute. reflexivity. Qed.

End PreprocessingFacts.

(* ================================================================= *)
(** ** Training *)

Module TrainFacts.
Import Py Sklearn Os Train TrainSpec.

Section SaveModel.
Context {Model : Type} (pickle_dumps : Model → outcome string).

Lemma dump_to_failure (w : world Model) (m : Model) :
  io_failure pickle_dumps w m →
  ∃ fs' e, dump_to pickle_dumps (fs w) (model_save_path (self w)) m = (fs', Raise e).
Proof.
  intros [Hw | [e He]]; unfold dump_to, open_wb.
  - rewrite Hw. eauto.
  - destruct (can_write _ _); [rewrite He|]; eauto.
Qed.

(** C8, amended.  When saving meets an I/O failure, [save_model] does not
    fail: the exception is caught, its message is logged, and the call
    returns [False].  The failure is not fatal: the trainer object is the
    one it was, and the trained model it holds is still there. *)
Theorem save_model_failure_keeps_trainer (w : world Model) (m : Model) :
  model (self w) = Some m →
  io_failure pickle_dumps w m →
  snd (save_model pickle_dumps w) = false ∧
  self (fst (save_model pickle_dumps w)) = self w ∧
  model (self (fst (save_model pickle_dumps w))) = Some m ∧
  ∃ e, snd (dump_to pickle_dumps (fs w) (model_save_path (self w)) m) = Raise e
       ∧ log (fst (save_model pickle_dumps w))
         = (log w ++ [("Error saving model: " ++ exn_msg e)%string])%list.
Proof.
  intros Hm Hio.
  destruct (dump_to_failure w m Hio) as (fs' & e & Hdump).
  unfold save_model. rewrite Hm, Hdump. simpl.
  split; [reflexivity|]. split; [reflexivity|]. split; [exact Hm|].
  exists e. split; reflexivity.
Qed.

(** Whatever happens, [save_model] leaves the trainer object alone. *)
Lemma save_model_self (w : world Model) :
  self (fst (save_model pickle_dumps w)) = self w.
Proof.
  unfold save_model. destruct (model (self w)) as [m|]; [|reflexivity].
  destruct (dump_to _ _ _ _) as [fs' [u|e]]; reflexivity.
Qed.

(** Without failure the artifact is written and the result is [True]. *)
Lemma save_model_success (w : world Model) (m : Model) (bytes : string) :
  model (self w) = Some m →
  can_write (fs w) (model_save_path (self w)) = true →
  pickle_dumps m = Return bytes →
  snd (save_model pickle_dumps w) = true ∧
  files (fs (fst (save_model pickle_dumps w))) !! model_save_path (self w) = Some bytes.
Proof.
  intros Hm Hw Hd. unfold save_model, dump_to, open_wb.
  rewrite Hm, Hw, Hd. simpl. split; [reflexivity|].
  apply lookup_insert_eq.
Qed.
End SaveModel.

(** C8, as stated, fails.  On a file system that refuses the write, opening
    the file raises OSError.  The specification has [persist] fail with
    PersistError; [save_model] catches the exception, logs it and returns
    [False], so its caller sees a result and no error. *)
Lemma save_model_returns_False :
  io_failure dumps_ok read_only_world 7%nat
  ∧ dump_to dumps_ok (fs read_only_world) (model_save_path (self read_only_world)) 7%nat
    = (fs read_only_world,
       Raise (Exn OSError "[Errno 13] Permission denied: 'models/stress_model.pkl'"))
  ∧ persist dumps_ok read_only_world
    = Raise (Exn PersistError "[Errno 13] Permission denied: 'models/stress_model.pkl'")
  ∧ save_model_call dumps_ok read_only_world = Return false
  ∧ save_model_call dumps_ok read_only_world ≠ persist dumps_ok read_only_world.
Proof.
  split; [left; reflexivity|].
  split; [reflexivity|]. split; [reflexivity|]. split; [reflexivity|].
  discriminate.
Qed.

Lemma save_model_failure_keeps_trainer_witness :
  model (self read_only_world) = Some 7%nat ∧
  io_failure dumps_ok read_only_world 7%nat ∧
  snd (save_model dumps_ok read_only_world) = false ∧
  self (fst (save_model dumps_ok read_only_world)) = self read_only_world ∧
  model (self (fst (save_model dumps_ok read_only_world))) = Some 7%nat ∧
  ∃ e, snd (dump_to dumps_ok (fs read_only_world)
              (model_save_path (self read_only_world)) 7%nat) = Raise e
       ∧ log (fst (save_model dumps_ok read_only_world))
         = (log read_only_world ++ [("Error saving model: " ++ exn_msg e)%string])%list.
Proof.
  split; [reflexivity|]. split; [left; reflexivity|].
  apply (save_model_failure_keeps_trainer dumps_ok read_only_world 7%nat).
  - reflexivity.
  - left. reflexivity.
Defined.

(** The failure is logged, and the file system is untouched when the file
    could not even be opened. *)
Example save_model_read_only :
  save_model dumps_ok read_only_world
  = (World (self read_only_world) (fs read_only_world)
       ["Error saving model: [Errno 13] Permission denied: 'models/stress_model.pkl'"],
     false).
Proof. reflexivity. Qed.

End TrainFacts.

(* ================================================================= *)
(** ** Rounding and [max] *)

Module PyFacts.
Import Py PredictSpec.

Lemma Qlt_bool_iff (a b : Q) : Qlt_bool a b = true ↔ (a < b)%Q.
Proof.
  unfold Qlt_bool. rewrite negb_true_iff.
  split.
  - intros H. apply Qnot_le_lt. intros Hle.
    apply Qle_bool_iff in Hle. congruence.
  - intros H. destruct (Qle_bool b a) eqn:E; [|reflexivity].
    apply Qle_bool_iff in E. apply Qlt_not_le in H. contradiction.
Qed.

Lemma Qlt_bool_false_iff (a b : Q) : Qlt_bool a b = false ↔ (b <= a)%Q.
Proof.
  split.
  - intros H. apply Qnot_lt_le. intros Hlt.
    apply Qlt_bool_iff in Hlt. congruence.
  - intros H. destruct (Qlt_bool a b) eqn:E; [|reflexivity].
    apply Qlt_bool_iff in E. apply Qlt_not_le in E. contradiction.
Qed.

Lemma inject_Z_succ (z : Z) : (inject_Z (z + 1) == inject_Z z + 1)%Q.
Proof. rewrite inject_Z_plus. reflexivity. Qed.

(** The floor brackets its argument. *)
Lemma Qfloor_bounds (q : Q) :
  (inject_Z (Qfloor q) <= q ∧ q < inject_Z (Qfloor q) + 1)%Q.
Proof.
  split; [apply Qfloor_le|].
  rewrite <- inject_Z_succ. apply Qlt_floor.
Qed.

(** Rounding half to even gives the floor or the floor plus one, according
    to the fractional part. *)
Lemma round_half_even_cases (q : Q) :
  let f := Qfloor q in
  let r := (q - inject_Z f)%Q in
  (round_half_even q = f ∧ (r <= 1 # 2)%Q)
  ∨ (round_half_even q = (f + 1)%Z ∧ (1 # 2 <= r)%Q).
Proof.
  intros f r. unfold round_half_even. fold f. fold r.
  destruct (Qlt_bool r (1 # 2)) eqn:E1.
  - left. split; [reflexivity|]. apply Qlt_bool_iff in E1. lra.
  - apply Qlt_bool_false_iff in E1.
    destruct (Qlt_bool (1 # 2) r) eqn:E2.
    + right. split; [reflexivity | exact E1].
    + apply Qlt_bool_false_iff in E2.
      destruct (Z.even f); [left | right]; split; auto.
Qed.

(** The rounded integer is within one half of the argument. *)
Lemma round_half_even_error (q : Q) :
  (- (1 # 2) <= inject_Z (round_half_even q) - q <= 1 # 2)%Q.
Proof.
  destruct (Qfloor_bounds q) as [Hlo Hhi].
  destruct (round_half_even_cases q) as [[-> Hr] | [-> Hr]].
  - lra.
  - rewrite inject_Z_succ. lra.
Qed.

(** Rounding half to even is monotone. *)
Lemma round_half_even_mono (p q : Q) :
  (p <= q)%Q → (round_half_even p <= round_half_even q)%Z.
Proof.
  intros Hpq.
  pose proof (Qfloor_resp_le p q Hpq) as Hf.
  destruct (Qfloor_bounds p) as [Hplo Hphi].
  destruct (Qfloor_bounds q) as [Hqlo Hqhi].
  destruct (Z.eq_dec (Qfloor p) (Qfloor q)) as [Heq | Hne].
  - (* same floor: compare the fractional parts *)
    unfold round_half_even. rewrite <- Heq.
    set (f := Qfloor p) in *.
    assert (Hr : (p - inject_Z f <= q - inject_Z f)%Q) by lra.
    destruct (Qlt_bool (p - inject_Z f) (1 # 2)) eqn:P1;
      destruct (Qlt_bool (q - inject_Z f) (1 # 2)) eqn:Q1;
      destruct (Qlt_bool (1 # 2) (p - inject_Z f)) eqn:P2;
      destruct (Qlt_bool (1 # 2) (q - inject_Z f)) eqn:Q2;
      destruct (Z.even f);
      try lia;
      repeat match goal with
        | H : Qlt_bool _ _ = true |- _ => apply Qlt_bool_iff in H
        | H : Qlt_bool _ _ = false |- _ => apply Qlt_bool_false_iff in H
        end;
      lra.
  - (* the floor of [q] is at least one more *)
    assert (Hlt : (Qfloor p + 1 <= Qfloor q)%Z) by lia.
    destruct (round_half_even_cases p) as [[-> _] | [-> _]];
      destruct (round_half_even_cases q) as [[-> _] | [-> _]]; lia.
Qed.

Lemma round4_finite (q : Q) : round4 (Finite q) = Finite (rounded q # 10000).
Proof. reflexivity. Qed.

(** [round(x, 4)] moves a value by at most half a unit of the fourth
    decimal. *)
Lemma round4_error (q : Q) :
  (- (1 # 20000) <= finite_value (round4 (Finite q)) - q <= 1 # 20000)%Q.
Proof.
  simpl. pose proof (round_half_even_error (q * 10000)) as H.
  rewrite (Qmake_Qdiv (round_half_even (q * 10000)) 10000).
  set (n := inject_Z (round_half_even (q * 10000))) in *. clearbody n.
  change (inject_Z (Z.pos 10000)) with (10000 # 1)%Q.
  unfold Qdiv. change (/ (10000 # 1))%Q with (1 # 10000)%Q.
  lra.
Qed.

Lemma round4_mono (p q : Q) : (p <= q)%Q → (rounded p <= rounded q)%Z.
Proof. intros H. apply round_half_even_mono. lra. Qed.

Lemma Qlt_bool_same_den (a b : Z) (d : positive) :
  Qlt_bool (a # d) (b # d) = true ↔ (a < b)%Z.
Proof.
  rewrite Qlt_bool_iff. unfold Qlt. simpl.
  split; intros H; nia.
Qed.

(** One step of [max] commutes with rounding. *)
Lemma round4_max_step (a b : Q) :
  (if fgt (round4 (Finite b)) (round4 (Finite a))
   then round4 (Finite b) else round4 (Finite a))
  = round4 (if fgt (Finite b) (Finite a) then Finite b else Finite a).
Proof.
  rewrite !round4_finite. unfold fgt, flt.
  destruct (Qlt_bool a b) eqn:Hab.
  - apply Qlt_bool_iff in Hab.
    assert (Hm : (rounded a <= rounded b)%Z) by (apply round4_mono; lra).
    destruct (Qlt_bool (rounded a # 10000) (rounded b # 10000)) eqn:Hr.
    + apply round4_finite.
    + rewrite round4_finite.
      destruct (Z.eq_dec (rounded a) (rounded b)) as [-> | Hne]; [reflexivity|].
      assert (Hlt : (rounded a < rounded b)%Z) by lia.
      apply (Qlt_bool_same_den _ _ 10000) in Hlt. congruence.
  - apply Qlt_bool_false_iff in Hab.
    assert (Hm : (rounded b <= rounded a)%Z) by (apply round4_mono; exact Hab).
    destruct (Qlt_bool (rounded a # 10000) (rounded b # 10000)) eqn:Hr.
    + apply Qlt_bool_same_den in Hr. lia.
    + apply round4_finite.
Qed.

Lemma max_step_finite (a b : pyfloat) :
  is_finite a → is_finite b → is_finite (if fgt b a then b else a).
Proof. intros Ha Hb. destruct (fgt b a); assumption. Qed.

Lemma fold_max_round4 (l : list pyfloat) (a : pyfloat) :
  is_finite a → Forall is_finite l →
  fold_left (λ cur item, if fgt item cur then item else cur) (map round4 l) (round4 a)
  = round4 (fold_left (λ cur item, if fgt item cur then item else cur) l a).
Proof.
  intros Ha Hl. revert a Ha.
  induction Hl as [|b l Hb Hl IH]; intros a Ha; simpl; [reflexivity|].
  destruct a as [qa| | |]; try contradiction.
  destruct b as [qb| | |]; try contradiction.
  rewrite round4_max_step.
  apply IH. apply max_step_finite; exact I.
Qed.

(** The same on all floats: infinities and NaN are left as they are by
    [round], and compare with a finite value the same way before and after
    it is rounded. *)
Lemma round4_max_step_any (a b : pyfloat) :
  (if fgt (round4 b) (round4 a) then round4 b else round4 a)
  = round4 (if fgt b a then b else a).
Proof.
  destruct a as [qa| | |], b as [qb| | |]; try reflexivity.
  apply round4_max_step.
Qed.

Lemma fold_max_round4_any (l : list pyfloat) (a : pyfloat) :
  fold_left (λ cur item, if fgt item cur then item else cur) (map round4 l) (round4 a)
  = round4 (fold_left (λ cur item, if fgt item cur then item else cur) l a).
Proof.
  revert a. induction l as [|b l IH]; intros a; simpl; [reflexivity|].
  rewrite round4_max_step_any. apply IH.
Qed.

Lemma py_max_round4_any (l : list pyfloat) (m : pyfloat) :
  py_max l = Return m →
  py_max (map round4 l) = Return (round4 m).
Proof.
  intros Hm. destruct l as [|a l]; [discriminate|].
  simpl in *. injection Hm as <-.
  f_equal. apply fold_max_round4_any.
Qed.

(** The maximum of the rounded values is the rounded maximum. *)
Lemma py_max_round4 (l : list pyfloat) (m : pyfloat) :
  Forall is_finite l →
  py_max l = Return m →
  py_max (map round4 l) = Return (round4 m).
Proof.
  intros Hl Hm. destruct l as [|a l]; [discriminate|].
  inversion Hl as [|? ? Ha Hl']; subst.
  simpl in *. injection Hm as <-.
  f_equal. apply fold_max_round4; assumption.
Qed.

(** Rounding every term moves the sum by at most half a unit of the fourth
    decimal per term. *)
Lemma total_round4 (l : list pyfloat) :
  Forall is_finite l →
  (- (inject_Z (Z.of_nat (length l)) * (1 # 20000))
     <= total (map round4 l) - total l
     <= inject_Z (Z.of_nat (length l)) * (1 # 20000))%Q.
Proof.
  induction 1 as [|a l Ha Hl IH].
  - unfold total. simpl. change (inject_Z (Z.of_nat 0)) with 0%Q. lra.
  - destruct a as [q| | |]; try contradiction.
    pose proof (round4_error q) as He.
    unfold total in *. cbn [map foldr length].
    rewrite Nat2Z.inj_succ. unfold Z.succ. rewrite inject_Z_succ.
    set (s' := foldr Qplus 0%Q (map finite_value (map round4 l))) in *.
    set (s := foldr Qplus 0%Q (map finite_value l)) in *.
    set (n := inject_Z (Z.of_nat (length l))) in *.
    set (r := finite_value (round4 (Finite q))) in *.
    change (finite_value (Finite q)) with q.
    clearbody s' s n r.
    lra.
Qed.

End PyFacts.

(* ================================================================= *)
(** ** Inference *)

Module PredictFacts.
Import Py Sklearn Os Predict PredictSpec PyFacts.

(** *** The structure of [predict] *)

Lemma bind_Return {A B} (m : outcome A) (f : A → outcome B) (b : B) :
  m ≫= f = Return b → ∃ a, m = Return a ∧ f a = Return b.
Proof. destruct m as [a|e]; simpl; [eauto | discriminate]. Qed.

Section Inference.
Variable str_to_float : string → option pyfloat.

Lemma predict_valid (self : StressPredictor) data msg :
  validate_input str_to_float data = Return (true, msg) →
  predict str_to_float self data
  = try_except (infer str_to_float self data) on_failure.
Proof. intros H. unfold predict. rewrite H. reflexivity. Qed.

Lemma predict_invalid (self : StressPredictor) data msg :
  validate_input str_to_float data = Return (false, msg) →
  predict str_to_float self data = Return (error_result msg).
Proof. intros H. unfold predict. rewrite H. reflexivity. Qed.

Lemma predict_raise (self : StressPredictor) data e :
  validate_input str_to_float data = Raise e →
  predict str_to_float self data = Raise e.
Proof. intros H. unfold predict. rewrite H. reflexivity. Qed.

Lemma no_missing_features (data : gmap string pyval) (l : list string) :
  Forall (λ f, accepted_at str_to_float data f = true) l →
  filter (λ f, data !! f = None) l = [].
Proof.
  induction 1 as [|f l Hf Hl IH]; [reflexivity|].
  rewrite filter_cons. unfold accepted_at in Hf.
  destruct (data !! f) eqn:E; [|discriminate].
  rewrite decide_False by discriminate. exact IH.
Qed.

Lemma check_values_accepted (data : gmap string pyval) (l : list string) :
  Forall (λ f, accepted_at str_to_float data f = true) l →
  check_values str_to_float data l = Return (true, "").
Proof.
  induction 1 as [|f l Hf Hl IH]; [reflexivity|].
  simpl. unfold accepted_at, accepts in Hf. unfold getitem.
  destruct (data !! f) as [v|]; [|discriminate]. simpl.
  destruct (float str_to_float v) as [x|e]; [|discriminate].
  apply negb_true_iff in Hf. rewrite Hf. exact IH.
Qed.

Lemma extract_accepted (data : gmap string pyval) (l : list string) :
  Forall (λ f, accepted_at str_to_float data f = true) l →
  ∃ xs, mapM (λ f, getitem data f ≫= float str_to_float) l = Return xs
        ∧ length xs = length l.
Proof.
  induction 1 as [|f l Hf Hl (xs & IH & Hlen)]; [exists []; split; reflexivity|].
  unfold accepted_at, accepts in Hf.
  destruct (data !! f) as [v|] eqn:Ev; [|discriminate].
  destruct (float str_to_float v) as [x|e] eqn:Ex; [|discriminate].
  exists (x :: xs). split; [|simpl; now rewrite Hlen].
  simpl. rewrite IH. unfold getitem. rewrite Ev. simpl. rewrite Ex.
  reflexivity.
Qed.

(** The exceptions of [float]: ValueError, TypeError, or OverflowError on an
    integer out of range. *)
Lemma float_raises (v : pyval) (e : exn) :
  float str_to_float v = Raise e →
  is_ValueError_or_TypeError e = true
  ∨ ∃ z, v = VInt z ∧ ¬ (Z.abs z < float_int_bound)%Z.
Proof.
  destruct v as [|b|z|x|s|l|d]; simpl; try discriminate;
    try (intros [= <-]; left; reflexivity).
  - unfold float_of_int. destruct (Z.ltb_spec (Z.abs z) float_int_bound); [discriminate|].
    intros _. right. exists z. split; [reflexivity | lia].
  - destruct (str_to_float s); [discriminate|]. intros [= <-]. left. reflexivity.
Qed.

(** Without overflow, the loop of [validate_input] returns, and it returns
    success exactly when every value is accepted. *)
Lemma check_values_returns (data : gmap string pyval) (l : list string) :
  no_overflow data →
  Forall (λ f, is_Some (data !! f)) l →
  ∃ msg, check_values str_to_float data l
         = Return (forallb (accepted_at str_to_float data) l, msg).
Proof.
  intros Hno. induction 1 as [|f l [v Hv] Hl (msg & IH)]; [exists ""; reflexivity|].
  simpl. unfold accepted_at at 1, accepts, getitem. rewrite Hv. simpl.
  destruct (float str_to_float v) as [x|e] eqn:Ex.
  - destruct (flt x fzero); simpl; eauto.
  - destruct (float_raises v e Ex) as [-> | (z & -> & Hz)]; [simpl; eauto|].
    exfalso. apply Hz. eapply Hno. exact Hv.
Qed.

(** The part of C2 that holds: a request with a missing, negative or
    non-numeric value, and no integer out of the float range, gets the error
    result: [error] set, [stress_level] None, [confidence] 0.0. *)
Lemma predict_rejects (self : StressPredictor) (data : gmap string pyval) :
  no_overflow data →
  Exists (λ f, accepted_at str_to_float data f = false) feature_names →
  ∃ msg, predict str_to_float self data = Return (error_result msg).
Proof.
  intros Hno Hbad.
  destruct (filter (λ f, data !! f = None) feature_names) as [|f0 miss] eqn:Hmiss.
  - assert (Hall : Forall (λ f, is_Some (data !! f)) feature_names).
    { apply Forall_forall. intros f Hf.
      destruct (data !! f) eqn:E; [eauto|].
      assert (Hin : f ∈ filter (λ f, data !! f = None) feature_names)
        by (apply list_elem_of_filter; split; assumption).
      rewrite Hmiss in Hin. inversion Hin. }
    destruct (check_values_returns data feature_names Hno Hall) as (msg & Hc).
    assert (Hb : forallb (accepted_at str_to_float data) feature_names = false).
    { apply not_true_is_false. intros Ht.
      rewrite forallb_forall in Ht.
      apply Exists_exists in Hbad as (f & Hf & Hacc).
      rewrite (Ht f) in Hacc; [discriminate|].
      apply list_elem_of_In. exact Hf. }
    exists msg. apply predict_invalid.
    unfold validate_input. rewrite Hmiss, Hc, Hb. reflexivity.
  - eexists. apply predict_invalid.
    unfold validate_input. rewrite Hmiss. reflexivity.
Qed.

(** A result without [error] comes out of the inference step. *)
Lemma predict_success (self : StressPredictor) data (d : pydict) :
  predict str_to_float self data = Return d →
  dict_get d "error" = None →
  ∃ xs, extract_features str_to_float data = Return xs
        ∧ respond self xs = Return d.
Proof.
  intros Hp Hd. unfold predict in Hp.
  apply bind_Return in Hp as ([is_valid msg] & Hv & Hp).
  destruct is_valid; simpl in Hp.
  - unfold infer in Hp.
    destruct (extract_features str_to_float data) as [xs|e]; simpl in Hp.
    + exists xs. split; [reflexivity|].
      destruct (respond self xs) as [d'|e]; simpl in Hp; [exact Hp|].
      injection Hp as <-. discriminate.
    + injection Hp as <-. discriminate.
  - injection Hp as <-. discriminate.
Qed.
End Inference.

(** The string "75" and the booleans reach the model as 75.0, 1.0 and 0.0,
    and a prediction comes back. *)
Example predict_coerced_sample :
  extract_features decimal_str_to_float coerced_sample
  = Return [Finite 75; Finite 1; Finite 0; Finite 0.25; Finite 0]
  ∧ predict decimal_str_to_float (predictor uniform_model) coerced_sample
    = Return uniform_result.
Proof. split; vm_compute; reflexivity. Qed.

(** *** Validation failures *)

(** C2, at a request the code fails on.  The heart rate is a negative integer
    too large for a float: [float] raises OverflowError, which
    [validate_input] does not catch (it catches ValueError and TypeError) and
    which [predict] lets through, since it validates outside its [try]
    block.  No error result is returned. *)
Theorem predict_overflow_escapes (str_to_float : string → option pyfloat)
    (self : StressPredictor) :
  predict str_to_float self huge_negative
  = Raise (Exn OverflowError "int too large to convert to float").
Proof. vm_compute. reflexivity. Qed.

(** The same request makes a whole batch fail. *)
Example batch_predict_overflow (str_to_float : string → option pyfloat)
    (self : StressPredictor) :
  batch_predict str_to_float self [sample; huge_negative]
  = Raise (Exn OverflowError "int too large to convert to float").
Proof.
  unfold batch_predict. cbn [mapM].
  assert (H : predict str_to_float self huge_negative
              = Raise (Exn OverflowError "int too large to convert to float"))
    by (vm_compute; reflexivity).
  rewrite H.
  assert (Hv : validate_input str_to_float sample = Return (true, ""))
    by (vm_compute; reflexivity).
  rewrite (predict_valid str_to_float self sample "" Hv).
  destruct (infer str_to_float self sample); reflexivity.
Qed.

(** Requests the validation does reject. *)
Example predict_missing :
  predict decimal_str_to_float (predictor uniform_model)
    (delete "ecg" (delete "resp" sample))
  = Return (error_result "Missing features: ['ecg', 'resp']").
Proof. vm_compute. reflexivity. Qed.

Example predict_negative :
  predict decimal_str_to_float (predictor uniform_model) (<["ecg" := VInt (-1)]> sample)
  = Return (error_result "Feature 'ecg' must be non-negative").
Proof. vm_compute. reflexivity. Qed.

Example predict_not_a_number :
  predict decimal_str_to_float (predictor uniform_model) (<["gsr" := VStr "abc"]> sample)
  = Return (error_result "Feature 'gsr' must be a number").
Proof. vm_compute. reflexivity. Qed.

(** *** Scaling *)

(** C1, at the request of the test suite.  [predict] hands the five raw
    values to the model: with a model fitted on standardised features the
    heart rate 75 is read as 75 standard deviations above the mean and the
    answer is 'high'; on the row standardised with the training parameters
    (heart rate 0.5) the same model answers 'low'.  No scaler is stored,
    loaded or applied on the inference path. *)
Theorem predict_skips_scaling :
  extract_features decimal_str_to_float sample = Return raw_features
  ∧ predict decimal_str_to_float (predictor stump_model) sample
    = respond (predictor stump_model) raw_features
  ∧ respond (predictor stump_model) raw_features
    = Return (prediction_result "high" 1.0000 0.0000 0.0000 1.0000)
  ∧ apply_scaling training_scaling raw_features
    = [Finite ((75 - 70) / 10); Finite ((0.5 - 0.5) / 0.1); Finite ((0.3 - 0.3) / 0.1);
       Finite ((0.2 - 0.2) / 0.1); Finite ((0.4 - 0.4) / 0.1)]
  ∧ respond (predictor stump_model) (apply_scaling training_scaling raw_features)
    = Return (prediction_result "low" 1.0000 1.0000 0.0000 0.0000).
Proof. repeat split; vm_compute; reflexivity. Qed.

(** *** Probabilities and confidence *)

(** C3, as stated, fails.  The model's probabilities 1/3, 1/3, 1/3 sum to 1;
    each is returned as 0.3333, and the returned values sum to 0.9999, which
    is 1e-4 away from 1, more than the tolerance 1e-6. *)
Lemma rounded_probabilities_miss_one :
  predict decimal_str_to_float (predictor uniform_model) sample = Return uniform_result
  ∧ (total uniform_probabilities == 1)%Q
  ∧ (total (returned_probabilities uniform_result) == 0.9999)%Q
  ∧ ¬ (Qabs (total (returned_probabilities uniform_result) - 1) <= 1 # 1000000)%Q.
Proof.
  split; [vm_compute; reflexivity|].
  split; [reflexivity|].
  split; [reflexivity|].
  vm_compute. intros H. apply H. reflexivity.
Qed.

(** The dict comprehension pairs the classes with the probabilities, in
    order, and fails beyond three probabilities. *)
Lemma build_prob_dict_zip (ps : list pyfloat) (pd : list (string * pyfloat)) :
  build_prob_dict 0 ps [] = Return pd →
  (length ps ≤ 3)%nat ∧ pd = zip stress_classes ps.
Proof.
  destruct ps as [|p1 [|p2 [|p3 [|p4 ps]]]]; cbn; intros H;
    try (injection H as <-; split; [lia | reflexivity]).
  discriminate.
Qed.

Lemma inject_Z_length_le_3 (n : nat) : (n ≤ 3)%nat → (inject_Z (Z.of_nat n) <= 3)%Q.
Proof.
  intros H. change 3%Q with (inject_Z 3). rewrite <- Zle_Qle. lia.
Qed.

(** What a successful inference step returns, in terms of the probabilities
    of the model. *)
Lemma respond_success (self : StressPredictor) (xs : list pyfloat) (d : pydict) :
  respond self xs = Return d →
  ∃ ps conf,
    model_predict_proba (model self) [xs] ≫= index0 = Return ps
    ∧ py_max ps = Return conf
    ∧ (length ps ≤ 3)%nat
    ∧ returned_probabilities d = map round4 ps
    ∧ returned_confidence d = Some (round4 conf).
Proof.
  intros Hr. unfold respond in Hr.
  apply bind_Return in Hr as (prediction & _ & Hr).
  apply bind_Return in Hr as (ps & Hps & Hr).
  apply bind_Return in Hr as (level & _ & Hr).
  apply bind_Return in Hr as (conf & Hconf & Hr).
  apply bind_Return in Hr as (pd & Hpd & Hr).
  apply build_prob_dict_zip in Hpd as [Hlen ->].
  injection Hr as <-.
  exists ps, conf. repeat split; try assumption.
  destruct ps as [|p1 [|p2 [|p3 [|p4 ps]]]]; try reflexivity.
  simpl in Hlen. lia.
Qed.

(** C3, amended.  When [predict] returns a prediction for a request: every
    returned probability is the probability of the model rounded to 4
    decimal digits, and the returned confidence is the maximum of the
    returned probabilities.  When the probabilities of the model are finite,
    the returned ones sum to the sum of the model's within half a unit of the
    fourth decimal for each class; so, with at most three classes, they sum
    to 1.0 within [δ + 1.5e-4] when the model's sum to 1.0 within [δ]. *)
Theorem predict_probabilities_rounded (str_to_float : string → option pyfloat)
    (self : StressPredictor) (data : gmap string pyval) (d : pydict)
    (xs ps : list pyfloat) :
  predict str_to_float self data = Return d →
  dict_get d "error" = None →
  extract_features str_to_float data = Return xs →
  model_predict_proba (model self) [xs] ≫= index0 = Return ps →
  returned_probabilities d = map round4 ps
  ∧ (∃ c, returned_confidence d = Some c
          ∧ py_max (returned_probabilities d) = Return c)
  ∧ (Forall is_finite ps →
       (Qabs (total (returned_probabilities d) - total ps)
          <= inject_Z (Z.of_nat (length ps)) * (1 # 20000))%Q
       ∧ ∀ δ : Q, (Qabs (total ps - 1) <= δ)%Q →
           (Qabs (total (returned_probabilities d) - 1) <= δ + (3 # 20000))%Q).
Proof.
  intros Hp Hd Hxs Hps.
  destruct (predict_success str_to_float self data d Hp Hd) as (xs' & Hxs' & Hr).
  rewrite Hxs in Hxs'. injection Hxs' as <-.
  destruct (respond_success self xs d Hr) as (ps' & conf & Hps' & Hmax & Hlen & Hret & Hconf).
  rewrite Hps in Hps'. injection Hps' as <-.
  rewrite Hret. split; [reflexivity|].
  split; [exists (round4 conf); split; [exact Hconf | now apply py_max_round4_any]|].
  intros Hfin.
  pose proof (total_round4 ps Hfin) as Hsum.
  pose proof (inject_Z_length_le_3 _ Hlen) as Hn.
  set (n := inject_Z (Z.of_nat (length ps))) in *. clearbody n.
  set (s' := total (map round4 ps)) in *. clearbody s'.
  set (s := total ps) in *. clearbody s.
  split.
  - apply Qabs_Qle_condition. split; lra.
  - intros δ Hδ. apply Qabs_Qle_condition in Hδ.
    apply Qabs_Qle_condition. split; lra.
Qed.

Lemma predict_probabilities_rounded_witness :
  predict decimal_str_to_float (predictor thirds_model) dyadic_sample = Return uniform_result
  ∧ dict_get uniform_result "error" = None
  ∧ extract_features decimal_str_to_float dyadic_sample = Return dyadic_features
  ∧ model_predict_proba thirds_model [dyadic_features] ≫= index0 = Return binary64_thirds
  ∧ Forall is_finite binary64_thirds
  ∧ (Qabs (total binary64_thirds - 1) <= 1 # 18014398509481984)%Q
  ∧ returned_probabilities uniform_result = map round4 binary64_thirds
  ∧ (∃ c, returned_confidence uniform_result = Some c
          ∧ py_max (returned_probabilities uniform_result) = Return c)
  ∧ (Qabs (total (returned_probabilities uniform_result) - total binary64_thirds)
       <= inject_Z (Z.of_nat (length binary64_thirds)) * (1 # 20000))%Q
  ∧ (Qabs (total (returned_probabilities uniform_result) - 1)
       <= (1 # 18014398509481984) + (3 # 20000))%Q.
Proof.
  assert (Hfin : Forall is_finite binary64_thirds) by repeat constructor.
  assert (Hone : (Qabs (total binary64_thirds - 1) <= 1 # 18014398509481984)%Q)
    by (vm_compute; discriminate).
  split; [vm_compute; reflexivity|].
  split; [reflexivity|].
  split; [vm_compute; reflexivity|].
  split; [reflexivity|].
  split; [exact Hfin|].
  split; [exact Hone|].
  destruct (predict_probabilities_rounded decimal_str_to_float (predictor thirds_model)
              dyadic_sample uniform_result dyadic_features binary64_thirds)
    as (Hret & Hconf & Hsum).
  - vm_compute. reflexivity.
  - reflexivity.
  - vm_compute. reflexivity.
  - reflexivity.
  - destruct (Hsum Hfin) as [Hnear Htol].
    split; [exact Hret|]. split; [exact Hconf|].
    split; [exact Hnear|]. exact (Htol _ Hone).
Defined.

(** *** The mock model *)

(** C5, as stated, fails: the mock classifier is not the trainer's classifier
    minus class weighting.  It has no depth limit and the library's defaults
    2 and 1 for the split and leaf sizes, where the trainer sets 15, 5 and
    2. *)
Lemma mock_classifier_not_the_trainers :
  mock_classifier ≠ without_class_weight (Train.train_classifier 42)
  ∧ (max_depth mock_classifier, min_samples_split mock_classifier,
     min_samples_leaf mock_classifier) = (None, 2%Z, 1%Z)
  ∧ (max_depth (Train.train_classifier 42), min_samples_split (Train.train_classifier 42),
     min_samples_leaf (Train.train_classifier 42)) = (Some 15%Z, 5%Z, 2%Z).
Proof. repeat split; try reflexivity. discriminate. Qed.

Lemma Forall_map_all {A B} (P : B → Prop) (f : A → B) (l : list A) :
  (∀ a, P (f a)) → Forall P (map f l).
Proof. intros H. induction l; constructor; auto. Qed.

Section MockModel.
Variable pickle_load : string → outcome sk_model.
Variable rf_fit : RandomForestClassifier → list (list pyfloat) → list Z → sk_model.
Variable rand : nat → Q.
Variable choice : nat → nat.

Lemma load_model_fallback (fs : filesystem) (path : string) :
  artifact_unusable pickle_load fs path →
  load_model pickle_load rf_fit rand choice fs path
  = _create_mock_model rf_fit rand choice.
Proof.
  intros [Habsent | [e He]]; unfold load_model.
  - rewrite Habsent. reflexivity.
  - destruct (exists_ fs path); simpl; [|reflexivity].
    destruct (read_rb fs path) as [content|e']; simpl in He |- *.
    + rewrite He. reflexivity.
    + reflexivity.
Qed.

(** C5, amended.  When the artifact is absent or cannot be unpickled, the
    model of the predictor is the mock model: what the library fits with 100
    trees, seed 42, parallel construction and, for the rest, its defaults (no
    depth limit, at least 2 samples to split, at least 1 per leaf, no class
    weighting), on 100 rows of 5 features, each a draw of the generator times
    100, hence in [0, 100), and on 100 labels among 0, 1, 2. *)
Theorem create_mock_model_spec (fs : filesystem) (path : string) :
  (∀ k, 0 <= rand k < 1)%Q →
  (∀ k, (choice k < 3)%nat) →
  artifact_unusable pickle_load fs path →
  load_model pickle_load rf_fit rand choice fs path
  = _create_mock_model rf_fit rand choice
  ∧ _create_mock_model rf_fit rand choice
    = rf_fit {| n_estimators := 100;
                max_depth := None;
                min_samples_split := 2;
                min_samples_leaf := 1;
                random_state := Some 42%Z;
                n_jobs := Some (-1)%Z;
                class_weight := None |}
             (X_mock rand) (y_mock choice)
  ∧ length (X_mock rand) = 100%nat
  ∧ Forall (λ row, length row = 5%nat
                   ∧ Forall (λ x, ∃ q, x = Finite q ∧ (0 <= q < 100)%Q) row)
           (X_mock rand)
  ∧ length (y_mock choice) = 100%nat
  ∧ Forall (λ y, y ∈ [0; 1; 2]%Z) (y_mock choice).
Proof.
  intros Hrand Hchoice Hbad.
  split; [apply load_model_fallback; exact Hbad|].
  split; [reflexivity|]. split; [reflexivity|].
  split.
  { apply Forall_map_all. intros i. split; [reflexivity|].
    apply Forall_map_all. intros j. eexists. split; [reflexivity|].
    specialize (Hrand (5 * i + j)%nat). lra. }
  split; [reflexivity|].
  apply Forall_map_all. intros i. specialize (Hchoice i).
  destruct (choice i) as [|[|[|n]]]; simpl; [repeat constructor..|lia].
Qed.
End MockModel.

Lemma create_mock_model_spec_witness :
  (∀ k, 0 <= rand_half k < 1)%Q
  ∧ (∀ k, (choice_cycle k < 3)%nat)
  ∧ artifact_unusable broken_pickle garbage_fs "model.pkl"
  ∧ load_model broken_pickle fit_uniform rand_half choice_cycle garbage_fs "model.pkl"
    = _create_mock_model fit_uniform rand_half choice_cycle
  ∧ length (X_mock rand_half) = 100%nat
  ∧ length (y_mock choice_cycle) = 100%nat.
Proof.
  split; [intros k; unfold rand_half; lra|].
  split; [intros k; apply Nat.mod_upper_bound; lia|].
  split; [right; eexists; reflexivity|].
  pose proof (create_mock_model_spec broken_pickle fit_uniform rand_half choice_cycle
                garbage_fs "model.pkl") as H.
  destruct H as (H1 & _ & H3 & _ & H5 & _).
  - intros k. unfold rand_half. lra.
  - intros k. apply Nat.mod_upper_bound. lia.
  - right. eexists. reflexivity.
  - repeat split; assumption.
Defined.

End PredictFacts.

(* ================================================================= *)
(** ** Inference: validation, results and batches *)

Module InferenceFacts.
Import Py Sklearn Os Predict PredictSpec ServiceSpec PyFacts PredictFacts.

Section Validation.
Variable str_to_float : string → option pyfloat.

Lemma present_no_missing (data : gmap string pyval) (l : list string) :
  Forall (λ f, is_Some (data !! f)) l →
  filter (λ f, data !! f = None) l = [].
Proof.
  induction 1 as [|f l [v Hv] Hl IH]; [reflexivity|].
  rewrite filter_cons. rewrite decide_False by (rewrite Hv; discriminate).
  exact IH.
Qed.

Lemma no_missing_present (data : gmap string pyval) (l : list string) :
  filter (λ f, data !! f = None) l = [] →
  Forall (λ f, is_Some (data !! f)) l.
Proof.
  intros Hnil. apply Forall_forall. intros f Hf.
  destruct (data !! f) as [v|] eqn:E; [eauto|].
  assert (Hin : f ∈ filter (λ f, data !! f = None) l)
    by (apply list_elem_of_filter; split; assumption).
  rewrite Hnil in Hin. inversion Hin.
Qed.

(** The loop passes over accepted features. *)
Lemma check_values_skip (data : gmap string pyval) (pre rest : list string) :
  Forall (λ f, accepted_at str_to_float data f = true) pre →
  check_values str_to_float data (pre ++ rest)%list = check_values str_to_float data rest.
Proof.
  induction 1 as [|f l Hf Hl IH]; [reflexivity|].
  simpl. unfold accepted_at, accepts in Hf. unfold getitem.
  destruct (data !! f) as [v|]; [|discriminate]. simpl.
  destruct (float str_to_float v) as [x|e]; [|discriminate].
  apply negb_true_iff in Hf. rewrite Hf. exact IH.
Qed.

(** A success of the loop means that every feature was accepted. *)
Lemma check_values_sound (data : gmap string pyval) (l : list string) (msg : string) :
  check_values str_to_float data l = Return (true, msg) →
  msg = "" ∧ Forall (λ f, accepted_at str_to_float data f = true) l.
Proof.
  induction l as [|f l IH]; simpl.
  - intros [= <-]. split; [reflexivity | constructor].
  - unfold getitem.
    destruct (data !! f) as [v|] eqn:Ev; simpl; [|discriminate].
    destruct (float str_to_float v) as [x|e] eqn:Ex; simpl.
    + destruct (flt x fzero) eqn:Hx; [discriminate|].
      intros H. destruct (IH H) as [-> Hall]. split; [reflexivity|].
      constructor; [|exact Hall].
      unfold accepted_at, accepts. rewrite Ev, Ex, Hx. reflexivity.
    + destruct (is_ValueError_or_TypeError e); discriminate.
Qed.

(** The loop raises only on an integer beyond the range of a float. *)
Lemma check_values_raises (data : gmap string pyval) (l : list string) (e : exn) :
  Forall (λ f, is_Some (data !! f)) l →
  check_values str_to_float data l = Raise e →
  e = Exn OverflowError "int too large to convert to float"
  ∧ ∃ f z, f ∈ l ∧ data !! f = Some (VInt z) ∧ (float_int_bound <= Z.abs z)%Z.
Proof.
  induction 1 as [|f l [v Hv] Hl IH]; simpl; [discriminate|].
  unfold getitem. rewrite Hv. simpl.
  destruct (float str_to_float v) as [x|e'] eqn:Ex; simpl.
  - destruct (flt x fzero); [discriminate|].
    intros H. destruct (IH H) as (Hc & f' & z & Hin & Hf' & Hz).
    split; [exact Hc|]. exists f', z. split; [right; exact Hin | auto].
  - destruct (float_raises str_to_float v e' Ex) as [Hvt | (z & -> & Hz)].
    + rewrite Hvt. discriminate.
    + simpl in Ex. unfold float_of_int in Ex.
      destruct (Z.abs z <? float_int_bound)%Z; [discriminate|].
      injection Ex as <-. simpl. intros [= <-].
      split; [reflexivity|]. exists f, z.
      split; [left | split; [exact Hv | lia]].
Qed.

(** X1.  A success of [validate_input] is sound: it comes with an empty
    message, and then every required key is present with a value whose
    [float] is defined and not negative. *)
Theorem validate_input_sound (data : gmap string pyval) (msg : string) :
  validate_input str_to_float data = Return (true, msg) →
  msg = "" ∧ Forall (λ f, accepted_at str_to_float data f = true) feature_names.
Proof.
  unfold validate_input.
  destruct (filter (λ f, data !! f = None) feature_names); [|discriminate].
  apply check_values_sound.
Qed.

(** X2.  The first offending feature is the one reported: when all keys are
    present, the features before [f] are accepted and the value of [f]
    converts to a negative float, the answer is the non-negativity error of
    [f], whatever the later values are. *)
Theorem validate_input_first_negative (data : gmap string pyval)
    (pre post : list string) (f : string) (v : pyval) (x : pyfloat) :
  feature_names = (pre ++ f :: post)%list →
  Forall (λ g, is_Some (data !! g)) feature_names →
  Forall (λ g, accepted_at str_to_float data g = true) pre →
  data !! f = Some v →
  float str_to_float v = Return x →
  flt x fzero = true →
  validate_input str_to_float data
  = Return (false, "Feature '" ++ f ++ "' must be non-negative").
Proof.
  intros Hsplit Hpresent Hpre Hv Hx Hneg.
  unfold validate_input. rewrite (present_no_missing data _ Hpresent).
  rewrite Hsplit, (check_values_skip data pre (f :: post) Hpre).
  simpl. unfold getitem. rewrite Hv. simpl. rewrite Hx, Hneg. reflexivity.
Qed.

(** Likewise for a value that is not a number: when [float] raises
    ValueError or TypeError on the value of the first feature that is not
    accepted, the answer is the not-a-number error of that feature. *)
Lemma validate_input_first_not_number (data : gmap string pyval)
    (pre post : list string) (f : string) (v : pyval) (e : exn) :
  feature_names = (pre ++ f :: post)%list →
  Forall (λ g, is_Some (data !! g)) feature_names →
  Forall (λ g, accepted_at str_to_float data g = true) pre →
  data !! f = Some v →
  float str_to_float v = Raise e →
  is_ValueError_or_TypeError e = true →
  validate_input str_to_float data
  = Return (false, "Feature '" ++ f ++ "' must be a number").
Proof.
  intros Hsplit Hpresent Hpre Hv He Hcls.
  unfold validate_input. rewrite (present_no_missing data _ Hpresent).
  rewrite Hsplit, (check_values_skip data pre (f :: post) Hpre).
  simpl. unfold getitem. rewrite Hv. simpl. rewrite He, Hcls. reflexivity.
Qed.

(** X3.  A missing key wins over everything else: the answer of [predict] is
    the error result that lists the missing keys, and nothing is raised,
    whatever the values under the other keys (an integer out of the float
    range included). *)
Theorem predict_missing_key (self : StressPredictor) (data : gmap string pyval)
    (f : string) :
  f ∈ feature_names →
  data !! f = None →
  ∃ missing,
    predict str_to_float self data
    = Return (error_result ("Missing features: " ++ str_of_list missing))
    ∧ f ∈ missing
    ∧ ∀ g, g ∈ missing ↔ g ∈ feature_names ∧ data !! g = None.
Proof.
  intros Hf Hnone.
  exists (filter (λ g, data !! g = None) feature_names).
  assert (Hin : f ∈ filter (λ g, data !! g = None) feature_names)
    by (apply list_elem_of_filter; split; assumption).
  split; [|split; [exact Hin|]].
  - apply predict_invalid. unfold validate_input.
    destruct (filter (λ g, data !! g = None) feature_names) as [|g0 miss];
      [inversion Hin | reflexivity].
  - intros g. rewrite list_elem_of_filter. tauto.
Qed.

(** What makes [predict] raise. *)
Lemma predict_raise_cause (self : StressPredictor)
    (data : gmap string pyval) (e : exn) :
  predict str_to_float self data = Raise e →
  e = Exn OverflowError "int too large to convert to float"
  ∧ ∃ f z, f ∈ feature_names ∧ data !! f = Some (VInt z)
           ∧ (float_int_bound <= Z.abs z)%Z.
Proof.
  intros Hp. unfold predict in Hp.
  destruct (validate_input str_to_float data) as [[is_valid msg]|e'] eqn:Hv;
    simpl in Hp.
  - destruct is_valid; simpl in Hp; [|discriminate].
    destruct (infer str_to_float self data); discriminate.
  - injection Hp as ->. unfold validate_input in Hv.
    destruct (filter (λ f, data !! f = None) feature_names) eqn:Hmiss; [|discriminate].
    apply (check_values_raises data feature_names e); [|exact Hv].
    apply no_missing_present. exact Hmiss.
Qed.

(** X4.  The only exception that leaves [predict] is the OverflowError of
    [float] on an integer beyond the float range, under one of the required
    keys. *)
Theorem predict_raises_only_overflow (self : StressPredictor)
    (data : gmap string pyval) (e : exn) :
  predict str_to_float self data = Raise e →
  e = Exn OverflowError "int too large to convert to float"
  ∧ ∃ f z, f ∈ feature_names ∧ data !! f = Some (VInt z)
           ∧ (float_int_bound <= Z.abs z)%Z.
Proof. apply predict_raise_cause. Qed.

(** A request whose values are all accepted reaches the model. *)
Lemma predict_accepted (self : StressPredictor) (data : gmap string pyval) :
  Forall (λ f, accepted_at str_to_float data f = true) feature_names →
  ∃ xs, extract_features str_to_float data = Return xs
        ∧ predict str_to_float self data = try_except (respond self xs) on_failure.
Proof.
  intros Hacc.
  assert (Hv : validate_input str_to_float data = Return (true, "")).
  { unfold validate_input. rewrite (no_missing_features str_to_float data _ Hacc).
    apply check_values_accepted. exact Hacc. }
  destruct (extract_accepted str_to_float data feature_names Hacc) as (xs & Hxs & _).
  exists xs. split; [exact Hxs|].
  rewrite (predict_valid str_to_float self data "" Hv).
  unfold infer, extract_features. rewrite Hxs. reflexivity.
Qed.

(** X5.  A failure of the model is not fatal: when the request is valid and
    [model.predict] raises, [predict] returns the error result whose message
    is "Prediction failed: " followed by the message of the exception. *)
Theorem predict_model_failure (self : StressPredictor) (data : gmap string pyval)
    (xs : list pyfloat) (e : exn) :
  Forall (λ f, accepted_at str_to_float data f = true) feature_names →
  extract_features str_to_float data = Return xs →
  model_predict (model self) [xs] = Raise e →
  predict str_to_float self data
  = Return (error_result ("Prediction failed: " ++ exn_msg e)).
Proof.
  intros Hacc Hxs He.
  destruct (predict_accepted self data Hacc) as (xs' & Hxs' & Hp).
  rewrite Hxs in Hxs'. injection Hxs' as <-.
  rewrite Hp. unfold respond. rewrite He. reflexivity.
Qed.

Lemma list_index_classes (i : Z) :
  (-3 <= i < 3)%Z →
  list_index stress_classes i = Return (nth (Z.to_nat (i `mod` 3)) stress_classes "").
Proof.
  intros Hi.
  assert (H : i = (-3)%Z ∨ i = (-2)%Z ∨ i = (-1)%Z ∨ i = 0%Z ∨ i = 1%Z ∨ i = 2%Z) by lia.
  destruct H as [-> | [-> | [-> | [-> | [-> | ->]]]]]; reflexivity.
Qed.

Lemma list_index_out_of_range (i : Z) :
  (i < -3 ∨ 3 <= i)%Z →
  list_index stress_classes i = Raise (Exn IndexError "list index out of range").
Proof.
  intros Hi. unfold list_index. simpl length.
  destruct (Z.ltb_spec i 0).
  - destruct (Z.leb_spec 0 (i + Z.of_nat 3)); [lia|]. reflexivity.
  - destruct (Z.leb_spec 0 i); [|lia].
    destruct (Z.ltb_spec i (Z.of_nat 3)); [lia|]. reflexivity.
Qed.



(** X6.  The class index of the model is read as a Python list index: an
    index from -3 to 2 selects a stress level, the negative ones counting
    from the end; with one to three probabilities the prediction then
    carries that level. *)
Theorem predict_stress_level (self : StressPredictor) (data : gmap string pyval)
    (xs : list pyfloat) (i : Z) (others : list Z)
    (ps : list pyfloat) (rest : list (list pyfloat)) :
  Forall (λ f, accepted_at str_to_float data f = true) feature_names →
  extract_features str_to_float data = Return xs →
  model_predict (model self) [xs] = Return (i :: others) →
  model_predict_proba (model self) [xs] = Return (ps :: rest) →
  (-3 <= i < 3)%Z →
  (1 ≤ length ps ≤ 3)%nat →
  ∃ d, predict str_to_float self data = Return d
       ∧ dict_get d "error" = None
       ∧ dict_get d "stress_level"
         = Some (VStr (nth (Z.to_nat (i `mod` 3)) stress_classes "")).
Proof.
  intros Hacc Hxs Hi Hps Hrange Hlen.
  destruct (predict_accepted self data Hacc) as (xs' & Hxs' & Hp).
  rewrite Hxs in Hxs'. injection Hxs' as <-.
  rewrite Hp. unfold respond. rewrite Hi, Hps. simpl.
  rewrite (list_index_classes i Hrange). simpl.
  destruct ps as [|p1 [|p2 [|p3 [|p4 ps]]]]; simpl in Hlen; try lia;
    eexists; (split; [reflexivity|]); split; reflexivity.
Qed.

(** X7.  A class index outside -3..2 is not mapped to a level: the answer is
    the error result of a failed prediction. *)
Theorem predict_class_out_of_range (self : StressPredictor) (data : gmap string pyval)
    (xs : list pyfloat) (i : Z) (others : list Z)
    (ps : list pyfloat) (rest : list (list pyfloat)) :
  Forall (λ f, accepted_at str_to_float data f = true) feature_names →
  extract_features str_to_float data = Return xs →
  model_predict (model self) [xs] = Return (i :: others) →
  model_predict_proba (model self) [xs] = Return (ps :: rest) →
  (i < -3 ∨ 3 <= i)%Z →
  predict str_to_float self data
  = Return (error_result "Prediction failed: list index out of range").
Proof.
  intros Hacc Hxs Hi Hps Hrange.
  destruct (predict_accepted self data Hacc) as (xs' & Hxs' & Hp).
  rewrite Hxs in Hxs'. injection Hxs' as <-.
  rewrite Hp. unfold respond. rewrite Hi, Hps. simpl.
  rewrite (list_index_out_of_range i Hrange). reflexivity.
Qed.
End Validation.


Lemma validate_input_sound_witness :
  validate_input decimal_str_to_float sample = Return (true, "")
  ∧ "" = ""
  ∧ Forall (λ f, accepted_at decimal_str_to_float sample f = true) feature_names.
Proof.
  split; [vm_compute; reflexivity|].
  apply (validate_input_sound decimal_str_to_float sample "").
  vm_compute. reflexivity.
Defined.

Lemma validate_input_first_negative_witness :
  feature_names = (["heart_rate"] ++ "ecg" :: ["emg"; "gsr"; "resp"])%list
  ∧ negative_ecg !! "ecg" = Some (VInt (-1))
  ∧ float decimal_str_to_float (VInt (-1)) = Return (Finite (-1))
  ∧ flt (Finite (-1)) fzero = true
  ∧ validate_input decimal_str_to_float negative_ecg
    = Return (false, "Feature 'ecg' must be non-negative").
Proof.
  split; [reflexivity|]. split; [reflexivity|].
  split; [reflexivity|]. split; [reflexivity|].
  apply (validate_input_first_negative decimal_str_to_float negative_ecg
           ["heart_rate"] ["emg"; "gsr"; "resp"] "ecg" (VInt (-1)) (Finite (-1))).
  - reflexivity.
  - repeat constructor; eexists; reflexivity.
  - repeat constructor.
  - reflexivity.
  - reflexivity.
  - reflexivity.
Defined.

Lemma predict_missing_key_witness :
  "gsr" ∈ feature_names
  ∧ two_missing !! "gsr" = None
  ∧ ∃ missing,
      predict decimal_str_to_float (predictor uniform_model) two_missing
      = Return (error_result ("Missing features: " ++ str_of_list missing))
      ∧ "gsr" ∈ missing
      ∧ ∀ g, g ∈ missing ↔ g ∈ feature_names ∧ two_missing !! g = None.
Proof.
  split; [repeat constructor|]. split; [reflexivity|].
  apply (predict_missing_key decimal_str_to_float (predictor uniform_model)
           two_missing "gsr").
  - repeat constructor.
  - reflexivity.
Defined.

Lemma predict_raises_only_overflow_witness :
  predict decimal_str_to_float (predictor uniform_model) huge_negative
  = Raise (Exn OverflowError "int too large to convert to float")
  ∧ Exn OverflowError "int too large to convert to float"
    = Exn OverflowError "int too large to convert to float"
  ∧ ∃ f z, f ∈ feature_names ∧ huge_negative !! f = Some (VInt z)
           ∧ (float_int_bound <= Z.abs z)%Z.
Proof.
  split; [vm_compute; reflexivity|].
  apply (predict_raises_only_overflow decimal_str_to_float (predictor uniform_model)
           huge_negative).
  vm_compute. reflexivity.
Defined.

Lemma predict_model_failure_witness :
  Forall (λ f, accepted_at decimal_str_to_float sample f = true) feature_names
  ∧ extract_features decimal_str_to_float sample = Return raw_features
  ∧ model_predict failing_model [raw_features]
    = Raise (Exn ValueError "X has 5 features, but the model expects 8")
  ∧ predict decimal_str_to_float (predictor failing_model) sample
    = Return (error_result
                "Prediction failed: X has 5 features, but the model expects 8").
Proof.
  split; [repeat constructor|].
  split; [vm_compute; reflexivity|].
  split; [reflexivity|].
  apply (predict_model_failure decimal_str_to_float (predictor failing_model) sample
           raw_features (Exn ValueError "X has 5 features, but the model expects 8")).
  - repeat constructor.
  - vm_compute. reflexivity.
  - reflexivity.
Defined.

Lemma predict_stress_level_witness :
  model_predict (index_model (-1)) [raw_features] = Return [(-1)%Z]
  ∧ model_predict_proba (index_model (-1)) [raw_features]
    = Return [uniform_probabilities]
  ∧ ∃ d, predict decimal_str_to_float (predictor (index_model (-1))) sample = Return d
         ∧ dict_get d "error" = None
         ∧ dict_get d "stress_level" = Some (VStr "high").
Proof.
  split; [reflexivity|]. split; [reflexivity|].
  apply (predict_stress_level decimal_str_to_float (predictor (index_model (-1)))
           sample raw_features (-1) [] uniform_probabilities []).
  - repeat constructor.
  - vm_compute. reflexivity.
  - reflexivity.
  - reflexivity.
  - lia.
  - simpl. lia.
Defined.

Lemma predict_class_out_of_range_witness :
  model_predict (index_model 3) [raw_features] = Return [3%Z]
  ∧ predict decimal_str_to_float (predictor (index_model 3)) sample
    = Return (error_result "Prediction failed: list index out of range").
Proof.
  split; [reflexivity|].
  apply (predict_class_out_of_range decimal_str_to_float (predictor (index_model 3))
           sample raw_features 3 [] uniform_probabilities []).
  - repeat constructor.
  - vm_compute. reflexivity.
  - reflexivity.
  - reflexivity.
  - lia.
Defined.

End InferenceFacts.

(* ================================================================= *)
(** ** Inference: the shape of results, and batches *)

Module ResultFacts.
Import Py Sklearn Os Predict PredictSpec ServiceSpec PyFacts PredictFacts InferenceFacts.

Lemma list_index_elem {A} (l : list A) (i : Z) (a : A) :
  list_index l i = Return a → a ∈ l.
Proof.
  unfold list_index.
  destruct ((0 <=? _) && _)%Z; [|discriminate].
  destruct (l !! _) as [a'|] eqn:E; [|discriminate].
  intros [= <-]. eapply list_elem_of_lookup_2. exact E.
Qed.

Lemma fold_max_elem (l : list pyfloat) (a : pyfloat) :
  fold_left (λ cur item, if fgt item cur then item else cur) l a ∈ a :: l.
Proof.
  revert a. induction l as [|b l IH]; intros a; simpl; [left|].
  specialize (IH (if fgt b a then b else a)).
  apply elem_of_cons in IH as [-> | IH].
  - destruct (fgt b a); [right; left | left].
  - right. right. exact IH.
Qed.

(** The maximum is one of the items. *)
Lemma py_max_elem (l : list pyfloat) (m : pyfloat) :
  py_max l = Return m → m ∈ l.
Proof.
  destruct l as [|a l]; [discriminate|].
  simpl. intros [= <-]. apply fold_max_elem.
Qed.

(** Rounding to four digits stays in the unit interval. *)
Lemma round4_in_unit (x : pyfloat) : in_unit x → in_unit (round4 x).
Proof.
  destruct x as [q| | |]; simpl; try contradiction.
  intros [Hlo Hhi].
  assert (H0 : (round_half_even 0 <= round_half_even (q * 10000))%Z)
    by (apply round_half_even_mono; lra).
  assert (H1 : (round_half_even (q * 10000) <= round_half_even 10000)%Z)
    by (apply round_half_even_mono; lra).
  change (round_half_even 0) with 0%Z in H0.
  change (round_half_even 10000) with 10000%Z in H1.
  unfold Qle. simpl. lia.
Qed.

Section Results.
Variable str_to_float : string → option pyfloat.

(** What a successful inference step returns, key by key. *)
Lemma respond_shape (self : StressPredictor) (xs : list pyfloat) (d : pydict) :
  respond self xs = Return d →
  ∃ level conf ps,
    level ∈ stress_classes
    ∧ (1 ≤ length ps ≤ 3)%nat
    ∧ d = [("stress_level", VStr level);
           ("confidence", VFloat conf);
           ("probabilities",
             VDict (zip (take (length ps) stress_classes) (map VFloat ps)));
           ("features_used", VList (map VStr feature_names))].
Proof.
  intros Hr. unfold respond in Hr.
  apply bind_Return in Hr as (prediction & _ & Hr).
  apply bind_Return in Hr as (ps & _ & Hr).
  apply bind_Return in Hr as (level & Hlevel & Hr).
  apply bind_Return in Hr as (conf & Hconf & Hr).
  apply bind_Return in Hr as (pd & Hpd & Hr).
  apply build_prob_dict_zip in Hpd as [Hlen ->].
  injection Hr as <-.
  exists level, (round4 conf), (map round4 ps).
  split; [eapply list_index_elem; exact Hlevel|].
  destruct ps as [|p1 [|p2 [|p3 [|p4 ps]]]]; simpl in Hlen; try lia;
    try discriminate; (split; [simpl; lia | reflexivity]).
Qed.

Lemma check_values_message (data : gmap string pyval) (l : list string) (msg : string) :
  check_values str_to_float data l = Return (false, msg) → msg ≠ "".
Proof.
  induction l as [|f l IH]; simpl; [discriminate|].
  destruct (getitem data f ≫= float str_to_float) as [x|e].
  - destruct (flt x fzero); [intros [= <-]; discriminate | exact IH].
  - destruct (is_ValueError_or_TypeError e); [intros [= <-]|]; discriminate.
Qed.

(** The message of an error result of [predict] is never empty. *)
Lemma predict_error_message (self : StressPredictor) (data : gmap string pyval)
    (d : pydict) (v : pyval) :
  predict str_to_float self data = Return d →
  dict_get d "error" = Some v →
  ∃ msg, v = VStr msg ∧ msg ≠ "" ∧ d = error_result msg.
Proof.
  intros Hp Hv. unfold predict in Hp.
  apply bind_Return in Hp as ([is_valid msg] & Hval & Hp).
  destruct is_valid; simpl in Hp.
  - destruct (infer str_to_float self data) as [d'|e] eqn:Hi; simpl in Hp.
    + injection Hp as <-. unfold infer in Hi.
      apply bind_Return in Hi as (xs & _ & Hr).
      apply respond_shape in Hr as (level & conf & ps & _ & _ & ->).
      discriminate.
    + injection Hp as <-. injection Hv as <-.
      eexists. split; [reflexivity|]. split; [discriminate | reflexivity].
  - injection Hp as <-. injection Hv as <-.
    exists msg. split; [reflexivity|]. split; [|reflexivity].
    unfold validate_input in Hval.
    destruct (filter _ feature_names); [|injection Hval as <-; discriminate].
    eapply check_values_message. exact Hval.
Qed.

(** The two kinds of result of [predict]. *)
Lemma predict_shape (self : StressPredictor) (data : gmap string pyval)
    (d : pydict) :
  predict str_to_float self data = Return d →
  (∃ msg, d = error_result msg
          ∧ dict_get d "error" = Some (VStr msg)
          ∧ dict_get d "stress_level" = Some VNone
          ∧ dict_get d "confidence" = Some (VFloat fzero)
          ∧ dict_get d "probabilities" = None)
  ∨ (∃ level probs,
       dict_get d "error" = None
       ∧ dict_get d "stress_level" = Some (VStr level)
       ∧ level ∈ stress_classes
       ∧ dict_get d "features_used" = Some (VList (map VStr feature_names))
       ∧ dict_get d "probabilities" = Some (VDict probs)
       ∧ (1 ≤ length probs ≤ 3)%nat
       ∧ map fst probs = take (length probs) stress_classes).
Proof.
  intros Hp. unfold predict in Hp.
  apply bind_Return in Hp as ([is_valid msg] & Hv & Hp).
  assert (Herr : ∀ m, ∃ msg0, error_result m = error_result msg0
            ∧ dict_get (error_result m) "error" = Some (VStr msg0)
            ∧ dict_get (error_result m) "stress_level" = Some VNone
            ∧ dict_get (error_result m) "confidence" = Some (VFloat fzero)
            ∧ dict_get (error_result m) "probabilities" = None)
    by (intros m; exists m; repeat split).
  destruct is_valid; simpl in Hp.
  - unfold infer in Hp.
    destruct (extract_features str_to_float data) as [xs|e]; simpl in Hp.
    + destruct (respond self xs) as [d'|e] eqn:Hr; simpl in Hp.
      * injection Hp as <-. right.
        apply respond_shape in Hr as (level & conf & ps & Hlevel & Hlen & ->).
        exists level, (zip (take (length ps) stress_classes) (map VFloat ps)).
        repeat split; try assumption; try reflexivity.
        -- destruct ps as [|p1 [|p2 [|p3 [|p4 ps]]]]; simpl in *; lia.
        -- destruct ps as [|p1 [|p2 [|p3 [|p4 ps]]]]; simpl in *; lia.
        -- destruct ps as [|p1 [|p2 [|p3 [|p4 ps]]]]; simpl in *; try lia; reflexivity.
      * injection Hp as <-. left. apply Herr.
    + injection Hp as <-. left. apply Herr.
  - injection Hp as <-. left. apply Herr.
Qed.

(** A result of [predict] always has the key [stress_level]. *)
Lemma predict_has_stress_level (self : StressPredictor) (data : gmap string pyval)
    (d : pydict) :
  predict str_to_float self data = Return d →
  is_Some (dict_get d "stress_level").
Proof.
  intros Hp.
  destruct (predict_shape self data d Hp)
    as [(msg & _ & _ & H & _) | (level & probs & _ & H & _)];
    rewrite H; eauto.
Qed.

(** X8.  Every result of [predict] is of one of two kinds.  Either it is an
    error result: [error] holds a message, [stress_level] is None,
    [confidence] is 0.0 and there are no probabilities.  Or it is a
    prediction: no [error] key, a [stress_level] among 'low', 'medium' and
    'high', the five feature names under [features_used], and between one
    and three probabilities whose keys are the first stress levels, in
    order. *)
Theorem predict_result_kinds (self : StressPredictor) (data : gmap string pyval)
    (d : pydict) :
  predict str_to_float self data = Return d →
  (∃ msg, d = error_result msg
          ∧ dict_get d "error" = Some (VStr msg)
          ∧ dict_get d "stress_level" = Some VNone
          ∧ dict_get d "confidence" = Some (VFloat fzero)
          ∧ dict_get d "probabilities" = None)
  ∨ (∃ level probs,
       dict_get d "error" = None
       ∧ dict_get d "stress_level" = Some (VStr level)
       ∧ level ∈ stress_classes
       ∧ dict_get d "features_used" = Some (VList (map VStr feature_names))
       ∧ dict_get d "probabilities" = Some (VDict probs)
       ∧ (1 ≤ length probs ≤ 3)%nat
       ∧ map fst probs = take (length probs) stress_classes).
Proof. apply predict_shape. Qed.

(** X9.  When the probabilities of the model lie in [0, 1], so do the
    returned confidence and every returned probability: rounding to four
    digits does not leave the interval. *)
Theorem predict_confidence_in_unit (self : StressPredictor) (data : gmap string pyval)
    (d : pydict) (xs ps : list pyfloat) :
  predict str_to_float self data = Return d →
  dict_get d "error" = None →
  extract_features str_to_float data = Return xs →
  model_predict_proba (model self) [xs] ≫= index0 = Return ps →
  Forall in_unit ps →
  (∃ c, returned_confidence d = Some c ∧ in_unit c)
  ∧ Forall in_unit (returned_probabilities d).
Proof.
  intros Hp Hd Hxs Hps Hunit.
  destruct (predict_success str_to_float self data d Hp Hd) as (xs' & Hxs' & Hr).
  rewrite Hxs in Hxs'. injection Hxs' as <-.
  destruct (respond_success self xs d Hr)
    as (ps' & conf & Hps' & Hmax & Hlen & Hret & Hconf).
  rewrite Hps in Hps'. injection Hps' as <-.
  split.
  - exists (round4 conf). split; [exact Hconf|].
    apply round4_in_unit. apply py_max_elem in Hmax.
    rewrite Forall_forall in Hunit. apply Hunit. exact Hmax.
  - rewrite Hret. clear -Hunit.
    induction Hunit as [|p ps Hp Hps IH]; simpl; constructor;
      [apply round4_in_unit; exact Hp | exact IH].
Qed.

Lemma predict_total (self : StressPredictor) (data : gmap string pyval) :
  no_overflow data →
  ∃ d, predict str_to_float self data = Return d.
Proof.
  intros Hno.
  destruct (predict str_to_float self data) as [d|e] eqn:Hp; [eauto|].
  apply predict_raise_cause in Hp as (_ & f & z & _ & Hf & Hz).
  specialize (Hno f z Hf). lia.
Qed.

(** X10.  Without an integer beyond the float range, [predict] returns: no
    exception reaches the caller, whether the request is valid or not and
    whatever the model does. *)
Theorem predict_returns (self : StressPredictor) (data : gmap string pyval) :
  no_overflow data →
  ∃ d, predict str_to_float self data = Return d.
Proof. apply predict_total. Qed.

Lemma batch_predict_total (self : StressPredictor)
    (data_list : list (gmap string pyval)) :
  Forall no_overflow data_list →
  ∃ results,
    batch_predict str_to_float self data_list = Return results
    ∧ Forall2 (λ data d, predict str_to_float self data = Return d) data_list results.
Proof.
  unfold batch_predict.
  induction 1 as [|data l Hdata Hl (results & IH & Hall)].
  - exists []. split; [reflexivity | constructor].
  - destruct (predict_total self data Hdata) as (d & Hd).
    exists (d :: results). split; [|constructor; assumption].
    cbn [mapM]. rewrite Hd, IH. reflexivity.
Qed.

(** X11.  [batch_predict] answers every request of a batch, in order: when
    no request holds an integer beyond the float range, the result has one
    entry per request, the i-th being what [predict] returns for the i-th
    request; an invalid request only yields an error entry. *)
Theorem batch_predict_in_order (self : StressPredictor)
    (data_list : list (gmap string pyval)) :
  Forall no_overflow data_list →
  ∃ results,
    batch_predict str_to_float self data_list = Return results
    ∧ Forall2 (λ data d, predict str_to_float self data = Return d) data_list results.
Proof. apply batch_predict_total. Qed.

(** X12.  A request on which [predict] raises makes the whole batch raise:
    the results of the requests before it are lost and the requests after it
    are not looked at. *)
Theorem batch_predict_aborts (self : StressPredictor)
    (before after : list (gmap string pyval)) (data : gmap string pyval) (e : exn) :
  Forall (λ data', ∃ d, predict str_to_float self data' = Return d) before →
  predict str_to_float self data = Raise e →
  batch_predict str_to_float self (before ++ data :: after)%list = Raise e.
Proof.
  unfold batch_predict. intros Hbefore He.
  induction Hbefore as [|data' l (d & Hd) Hl IH]; cbn [mapM app].
  - rewrite He. reflexivity.
  - rewrite Hd. simpl. rewrite IH. reflexivity.
Qed.
End Results.

(** Requests built from values in the float range hold no integer beyond
    it. *)
Lemma no_overflow_empty : no_overflow ∅.
Proof. intros f z Hf. rewrite lookup_empty in Hf. discriminate. Qed.

Lemma no_overflow_insert (k : string) (v : pyval) (data : gmap string pyval) :
  in_float_range v → no_overflow data → no_overflow (<[k := v]> data).
Proof.
  intros Hv Hdata f z Hf.
  destruct (decide (k = f)) as [->|Hne].
  - rewrite lookup_insert_eq in Hf. injection Hf as ->. exact Hv.
  - rewrite lookup_insert_ne in Hf by exact Hne. exact (Hdata f z Hf).
Qed.

Lemma no_overflow_list_to_map (l : list (string * pyval)) :
  Forall (λ kv, in_float_range (snd kv)) l → no_overflow (list_to_map l).
Proof.
  induction 1 as [|[k v] l Hv Hl IH]; [exact no_overflow_empty|].
  apply no_overflow_insert; assumption.
Qed.

Lemma no_overflow_sample : no_overflow sample.
Proof.
  unfold sample.
  repeat (apply no_overflow_insert; [vm_compute; first [reflexivity | exact I]|]).
  apply no_overflow_empty.
Qed.

Lemma no_overflow_negative_ecg : no_overflow negative_ecg.
Proof.
  apply no_overflow_insert; [vm_compute; reflexivity | exact no_overflow_sample].
Qed.

Lemma no_overflow_json :
  Forall (λ it, no_overflow (list_to_map it)) [sample_json; negative_json].
Proof.
  repeat constructor; apply no_overflow_list_to_map;
    repeat constructor; vm_compute; reflexivity.
Qed.

Lemma predict_result_kinds_witness :
  predict decimal_str_to_float (predictor uniform_model) sample = Return uniform_result
  ∧ ((∃ msg, uniform_result = error_result msg
             ∧ dict_get uniform_result "error" = Some (VStr msg)
             ∧ dict_get uniform_result "stress_level" = Some VNone
             ∧ dict_get uniform_result "confidence" = Some (VFloat fzero)
             ∧ dict_get uniform_result "probabilities" = None)
     ∨ (∃ level probs,
          dict_get uniform_result "error" = None
          ∧ dict_get uniform_result "stress_level" = Some (VStr level)
          ∧ level ∈ stress_classes
          ∧ dict_get uniform_result "features_used"
            = Some (VList (map VStr feature_names))
          ∧ dict_get uniform_result "probabilities" = Some (VDict probs)
          ∧ (1 ≤ length probs ≤ 3)%nat
          ∧ map fst probs = take (length probs) stress_classes)).
Proof.
  split; [vm_compute; reflexivity|].
  apply (predict_result_kinds decimal_str_to_float (predictor uniform_model) sample
           uniform_result).
  vm_compute. reflexivity.
Defined.

Lemma predict_confidence_in_unit_witness :
  predict decimal_str_to_float (predictor uniform_model) sample = Return uniform_result
  ∧ dict_get uniform_result "error" = None
  ∧ extract_features decimal_str_to_float sample = Return raw_features
  ∧ model_predict_proba uniform_model [raw_features] ≫= index0
    = Return uniform_probabilities
  ∧ Forall in_unit uniform_probabilities
  ∧ (∃ c, returned_confidence uniform_result = Some c ∧ in_unit c)
  ∧ Forall in_unit (returned_probabilities uniform_result).
Proof.
  assert (Hunit : Forall in_unit uniform_probabilities)
    by (repeat constructor; discriminate).
  split; [vm_compute; reflexivity|].
  split; [reflexivity|].
  split; [vm_compute; reflexivity|].
  split; [reflexivity|].
  split; [exact Hunit|].
  apply (predict_confidence_in_unit decimal_str_to_float (predictor uniform_model)
           sample uniform_result raw_features uniform_probabilities).
  - vm_compute. reflexivity.
  - reflexivity.
  - vm_compute. reflexivity.
  - reflexivity.
  - exact Hunit.
Defined.

Lemma predict_returns_witness :
  no_overflow negative_ecg
  ∧ ∃ d, predict decimal_str_to_float (predictor uniform_model) negative_ecg = Return d.
Proof.
  split; [exact no_overflow_negative_ecg|].
  apply (predict_returns decimal_str_to_float (predictor uniform_model) negative_ecg).
  exact no_overflow_negative_ecg.
Defined.

Lemma batch_predict_in_order_witness :
  Forall no_overflow [sample; negative_ecg]
  ∧ ∃ results,
      batch_predict decimal_str_to_float (predictor uniform_model) [sample; negative_ecg]
      = Return results
      ∧ Forall2 (λ data d,
                   predict decimal_str_to_float (predictor uniform_model) data = Return d)
          [sample; negative_ecg] results.
Proof.
  assert (Hno : Forall no_overflow [sample; negative_ecg])
    by (repeat constructor; [exact no_overflow_sample | exact no_overflow_negative_ecg]).
  split; [exact Hno|].
  apply (batch_predict_in_order decimal_str_to_float (predictor uniform_model)
           [sample; negative_ecg]).
  exact Hno.
Defined.

Lemma batch_predict_aborts_witness :
  predict decimal_str_to_float (predictor uniform_model) sample = Return uniform_result
  ∧ predict decimal_str_to_float (predictor uniform_model) huge_negative
    = Raise (Exn OverflowError "int too large to convert to float")
  ∧ batch_predict decimal_str_to_float (predictor uniform_model)
      ([sample] ++ huge_negative :: [negative_ecg])%list
    = Raise (Exn OverflowError "int too large to convert to float").
Proof.
  split; [vm_compute; reflexivity|].
  split; [vm_compute; reflexivity|].
  apply (batch_predict_aborts decimal_str_to_float (predictor uniform_model)
           [sample] [negative_ecg] huge_negative).
  - repeat constructor. exists uniform_result. vm_compute. reflexivity.
  - vm_compute. reflexivity.
Defined.

End ResultFacts.

(* ================================================================= *)
(** ** The predictor as a service, and the routes *)

Module ServiceFacts.
Import Py Sklearn Os Predict PredictSpec ServiceSpec PredictService.
Import PyFacts PredictFacts InferenceFacts ResultFacts.

(** A dict and the map of its items answer lookups alike. *)
Lemma lookup_list_to_map (d : list (string * pyval)) (k : string) :
  (list_to_map d : gmap string pyval) !! k = dict_get d k.
Proof.
  induction d as [|[k' v] d IH]; simpl; [apply lookup_empty|].
  rewrite lookup_insert.
  destruct (String.eqb_spec k' k) as [-> | Hne].
  - rewrite decide_True by reflexivity. reflexivity.
  - rewrite decide_False by exact Hne. exact IH.
Qed.

Lemma mapM_ext {A B} (f g : A → outcome B) (l : list A) :
  (∀ a, f a = g a) → mapM f l = mapM g l.
Proof.
  intros H. induction l as [|a l IH]; [reflexivity|].
  cbn [mapM]. rewrite H, IH. reflexivity.
Qed.

Lemma mapM_Return {A B} (f : A → B) (l : list A) :
  mapM (λ a, Return (f a) : outcome B) l = Return (map f l).
Proof.
  induction l as [|a l IH]; [reflexivity|].
  cbn [mapM]. rewrite IH. reflexivity.
Qed.

Lemma missing_of_dict (d : list (string * pyval)) (l : list string) :
  omap (λ fp : string * bool, if snd fp then None else Some (fst fp))
    (zip l (map (λ f, bool_decide (is_Some (dict_get d f))) l))
  = filter (λ f, (list_to_map d : gmap string pyval) !! f = None) l.
Proof.
  induction l as [|f l IH]; [reflexivity|].
  simpl. rewrite filter_cons, lookup_list_to_map.
  destruct (dict_get d f) as [v|] eqn:E.
  - rewrite bool_decide_true by eauto. rewrite decide_False by discriminate.
    exact IH.
  - rewrite bool_decide_false by (intros [? ?]; discriminate).
    rewrite decide_True by reflexivity. f_equal. exact IH.
Qed.

Lemma getitem_any_dict (d : list (string * pyval)) (k : string) :
  getitem_any (VDict d) k = getitem (list_to_map d) k.
Proof.
  unfold getitem_any, getitem. rewrite lookup_list_to_map. reflexivity.
Qed.

Section AnyValue.
Variable str_to_float : string → option pyfloat.

Lemma check_values_any_dict (d : list (string * pyval)) (l : list string) :
  check_values_any str_to_float (VDict d) l
  = check_values str_to_float (list_to_map d) l.
Proof.
  induction l as [|f l IH]; [reflexivity|].
  cbn [check_values_any check_values]. rewrite getitem_any_dict, IH. reflexivity.
Qed.

Lemma validate_input_any_dict (d : list (string * pyval)) :
  validate_input_any str_to_float (VDict d)
  = validate_input str_to_float (list_to_map d).
Proof.
  unfold validate_input_any, validate_input.
  rewrite (mapM_ext (contains (VDict d))
             (λ f, Return (bool_decide (is_Some (dict_get d f))))) by reflexivity.
  rewrite mapM_Return. unfold mbind, outcome_bind. cbv zeta.
  rewrite missing_of_dict.
  destruct (filter _ feature_names); [|reflexivity].
  apply check_values_any_dict.
Qed.

(** On a JSON object, the predictor of the web layer is the predictor on
    the mapping of its items. *)
Lemma predict_any_dict (self : StressPredictor) (d : list (string * pyval)) :
  predict_any str_to_float self (VDict d)
  = predict str_to_float self (list_to_map d).
Proof.
  unfold predict_any, predict. rewrite validate_input_any_dict.
  destruct (validate_input _ _) as [[is_valid msg]|e]; [|reflexivity].
  destruct is_valid; [|reflexivity].
  cbn [mbind outcome_bind negb].
  unfold infer, extract_features.
  rewrite (mapM_ext (λ feature, getitem_any (VDict d) feature ≫= float str_to_float)
             (λ feature, getitem (list_to_map d) feature ≫= float str_to_float))
    by (intros f; rewrite getitem_any_dict; reflexivity).
  reflexivity.
Qed.

(** X13.  Handed a JSON value that is neither an object, a list nor a
    string (null, a boolean, a number), [predict] raises TypeError: the
    membership test on it is outside every [try]. *)
Theorem predict_any_scalar (self : StressPredictor) (data : pyval) :
  is_scalar data →
  predict_any str_to_float self data
  = Raise (Exn TypeError ("argument of type '" ++ type_name data ++ "' is not iterable")).
Proof.
  destruct data; simpl; try contradiction; reflexivity.
Qed.

Lemma validate_input_any_unsubscriptable (data : pyval) :
  (∀ k, ∃ b, contains data k = Return b) →
  (∀ k, ∃ e, getitem_any data k = Raise e ∧ is_ValueError_or_TypeError e = true) →
  ∃ msg, validate_input_any str_to_float data = Return (false, msg).
Proof.
  intros Hc Hg. unfold validate_input_any.
  assert (Hm : ∃ flags, mapM (contains data) feature_names = Return flags).
  { generalize feature_names. intros l. induction l as [|f l (flags & IH)].
    - exists []. reflexivity.
    - destruct (Hc f) as (b & Hb). exists (b :: flags).
      cbn [mapM]. rewrite Hb, IH. reflexivity. }
  destruct Hm as (flags & ->). simpl.
  destruct (omap _ _) as [|f0 miss]; [|eauto].
  unfold feature_names. cbn [check_values_any].
  destruct (Hg "heart_rate") as (e & -> & He). simpl. rewrite He. eauto.
Qed.

(** X14.  Handed a JSON list or string, [predict] never predicts and never
    raises: it returns an error result (the required names are missing, or,
    if the value happens to contain them all, the first feature is reported
    as not being a number). *)
Theorem predict_any_list_or_string (self : StressPredictor) (data : pyval) :
  (∃ l, data = VList l) ∨ (∃ s, data = VStr s) →
  ∃ msg, predict_any str_to_float self data = Return (error_result msg).
Proof.
  intros Hdata.
  assert (H : ∃ msg, validate_input_any str_to_float data = Return (false, msg)).
  { apply validate_input_any_unsubscriptable;
      destruct Hdata as [[l ->] | [s ->]]; intros k; simpl; eauto. }
  destruct H as (msg & Hv). exists msg.
  unfold predict_any. rewrite Hv. reflexivity.
Qed.
End AnyValue.

Section Lifecycle.
Variable pickle_load : string → outcome sk_model.
Variable pickle_dumps : sk_model → outcome string.
Variable rf_fit : RandomForestClassifier → list (list pyfloat) → list Z → sk_model.
Variable rand : nat → Q.
Variable choice : nat → nat.
Variable default_model_path : string.

(** X15.  Round trip of the artifact: after a [save_model] that succeeds,
    a predictor constructed on the path of the trainer holds the model that
    was saved, not the mock model, provided unpickling gives back what was
    pickled. *)
Theorem save_then_load (w : Train.world sk_model) (m : sk_model) (bytes : string) :
  Train.model (Train.self w) = Some m →
  can_write (Train.fs w) (Train.model_save_path (Train.self w)) = true →
  pickle_dumps m = Return bytes →
  pickle_load bytes = Return m →
  snd (Train.save_model pickle_dumps w) = true
  ∧ model (StressPredictor_new pickle_load rf_fit rand choice
             (Train.fs (fst (Train.save_model pickle_dumps w)))
             (Train.model_save_path (Train.self w)))
    = m.
Proof.
  intros Hm Hw Hd Hl.
  destruct (TrainFacts.save_model_success pickle_dumps w m bytes Hm Hw Hd) as [Hok Hfile].
  split; [exact Hok|].
  unfold StressPredictor_new, load_model, exists_, read_rb. simpl.
  rewrite Hfile. rewrite bool_decide_true by eauto. simpl.
  rewrite Hl. reflexivity.
Qed.

(** [get_predictor] is a singleton: once it has been called, every
    later call returns the predictor of the first call and leaves the module
    variable alone, whatever the environment and the files have become. *)
Lemma get_predictor_singleton (g : option StressPredictor)
    (environ environ' : gmap string string) (fs fs' : filesystem) :
  get_predictor pickle_load rf_fit rand choice default_model_path
    (fst (get_predictor pickle_load rf_fit rand choice default_model_path g environ fs))
    environ' fs'
  = get_predictor pickle_load rf_fit rand choice default_model_path g environ fs.
Proof. destruct g; reflexivity. Qed.

(** X16.  The hook run before each request sets [app.predictor] at the first
    request and never replaces it: a model file that appears later, or a
    changed [MODEL_PATH], is not seen until the process restarts. *)
Theorem before_request_once (st : App.app_state)
    (environ environ' : gmap string string) (fs fs' : filesystem) :
  is_Some (App.app_predictor
             (App.before_request pickle_load rf_fit rand choice default_model_path
                st environ fs))
  ∧ App.before_request pickle_load rf_fit rand choice default_model_path
      (App.before_request pickle_load rf_fit rand choice default_model_path
         st environ fs)
      environ' fs'
    = App.before_request pickle_load rf_fit rand choice default_model_path st environ fs.
Proof.
  unfold App.before_request.
  destruct st as [[p|] [g|]]; simpl; split; eauto.
Qed.
End Lifecycle.

Lemma predict_any_scalar_witness :
  is_scalar (VInt 75)
  ∧ predict_any decimal_str_to_float (predictor uniform_model) (VInt 75)
    = Raise (Exn TypeError "argument of type 'int' is not iterable").
Proof.
  split; [exact I|].
  apply (predict_any_scalar decimal_str_to_float (predictor uniform_model) (VInt 75)).
  exact I.
Defined.

Lemma predict_any_list_or_string_witness :
  ∃ msg, predict_any decimal_str_to_float (predictor uniform_model)
           (VList (map VStr feature_names))
         = Return (error_result msg).
Proof.
  apply (predict_any_list_or_string decimal_str_to_float (predictor uniform_model)
           (VList (map VStr feature_names))).
  left. eexists. reflexivity.
Defined.

Lemma save_then_load_witness :
  Train.model (Train.self trained_service) = Some uniform_model
  ∧ can_write (Train.fs trained_service)
      (Train.model_save_path (Train.self trained_service)) = true
  ∧ dumps_model uniform_model = Return "pickled"
  ∧ loads_uniform "pickled" = Return uniform_model
  ∧ snd (Train.save_model dumps_model trained_service) = true
  ∧ model (StressPredictor_new loads_uniform fit_uniform rand_half choice_cycle
             (Train.fs (fst (Train.save_model dumps_model trained_service)))
             (Train.model_save_path (Train.self trained_service)))
    = uniform_model.
Proof.
  split; [reflexivity|]. split; [reflexivity|].
  split; [reflexivity|]. split; [reflexivity|].
  apply (save_then_load loads_uniform dumps_model fit_uniform rand_half choice_cycle
           trained_service uniform_model "pickled"); reflexivity.
Defined.

End ServiceFacts.

(* ================================================================= *)
(** ** The routes *)

Module AppFacts.
Import Py Sklearn Os Predict PredictSpec ServiceSpec PredictService.
Import PyFacts PredictFacts InferenceFacts ResultFacts ServiceFacts.

Section Routes.
Variable str_to_float : string → option pyfloat.
Variable FLASK_ENV : string.
Variable predictor : StressPredictor.

(** X17.  [/api/predict] passes the dict of the predictor on unchanged, with
    status 200 for a prediction and 400 for every error result: a request
    that fails validation, and also a request on which the model itself
    failed. *)
Theorem predict_route_status (req : App.request) (d : list (string * pyval))
    (result : pydict) :
  App.is_json req = true →
  App.get_json req = Return (VDict d) →
  predict str_to_float predictor (list_to_map d) = Return result →
  App.predict str_to_float FLASK_ENV predictor req
  = (result, match dict_get result "error" with
             | Some _ => 400%Z
             | None => 200%Z
             end).
Proof.
  intros Hjson Hbody Hp. unfold App.predict.
  rewrite Hjson, Hbody. cbn [negb mbind outcome_bind App.keys].
  rewrite predict_any_dict, Hp. cbn [mbind outcome_bind].
  destruct (dict_get result "error") as [v|] eqn:Hv.
  - destruct (predict_error_message str_to_float predictor _ result v Hp Hv)
      as (msg & -> & Hmsg & _).
    simpl. destruct (String.eqb_spec msg ""); [contradiction | reflexivity].
  - destruct (predict_has_stress_level str_to_float predictor _ result Hp) as [v Hl].
    cbn [getitem_any]. rewrite Hl. reflexivity.
Qed.

(** X18.  A request on which [predict] raises (an integer beyond the float
    range) is answered with status 500 and "Internal server error", not with
    a 400; the message of the exception is shown only in development. *)
Theorem predict_route_overflow (req : App.request) (d : list (string * pyval))
    (e : exn) :
  App.is_json req = true →
  App.get_json req = Return (VDict d) →
  predict str_to_float predictor (list_to_map d) = Raise e →
  App.predict str_to_float FLASK_ENV predictor req
  = ([("error", VStr "Internal server error");
      ("message", VStr (if String.eqb FLASK_ENV "development"
                        then "int too large to convert to float"
                        else "An error occurred"))],
     500%Z).
Proof.
  intros Hjson Hbody Hp. unfold App.predict.
  rewrite Hjson, Hbody. cbn [negb mbind outcome_bind App.keys].
  rewrite predict_any_dict, Hp. unfold App.on_exception.
  apply predict_raise_cause in Hp as [-> _].
  reflexivity.
Qed.

(** X19.  A JSON body that is not an object (a list, a string, a number,
    null) is answered with status 500 by [/api/predict]: the route asks the
    body for its keys before it calls the predictor. *)
Theorem predict_route_not_object (req : App.request) (body : pyval) :
  App.is_json req = true →
  App.get_json req = Return body →
  (∀ d, body ≠ VDict d) →
  snd (App.predict str_to_float FLASK_ENV predictor req) = 500%Z.
Proof.
  intros Hjson Hbody Hnot. unfold App.predict.
  rewrite Hjson, Hbody. cbn [negb mbind outcome_bind].
  destruct body; try reflexivity.
  exfalso. eapply Hnot. reflexivity.
Qed.

Lemma batch_predict_any_dicts (items : list (list (string * pyval))) :
  batch_predict_any str_to_float predictor (map VDict items)
  = batch_predict str_to_float predictor (map list_to_map items).
Proof.
  unfold batch_predict_any, batch_predict.
  induction items as [|it items IH]; [reflexivity|].
  cbn [map mapM]. rewrite predict_any_dict, IH. reflexivity.
Qed.

(** X20.  [/api/batch-predict] answers a batch of 1 to 100 JSON objects with
    status 200, the count of the batch, and one prediction entry per
    object, in order; an object that fails validation only gets an error
    entry and does not change the status. *)
Theorem batch_route_ok (req : App.request) (d : list (string * pyval))
    (items : list (list (string * pyval))) :
  App.is_json req = true →
  App.get_json req = Return (VDict d) →
  dict_get d "data" = Some (VList (map VDict items)) →
  (1 ≤ length items ≤ 100)%nat →
  Forall (λ it, no_overflow (list_to_map it)) items →
  ∃ results,
    App.batch_predict str_to_float FLASK_ENV predictor req
    = ([("count", VInt (Z.of_nat (length items)));
        ("predictions", VList (map VDict results))],
       200%Z)
    ∧ Forall2 (λ it r, predict str_to_float predictor (list_to_map it) = Return r)
        items results.
Proof.
  intros Hjson Hbody Hdata Hlen Hno.
  destruct (batch_predict_total str_to_float predictor (map list_to_map items))
    as (results & Hres & Hall).
  { apply Forall_fmap. exact Hno. }
  exists results. split.
  - unfold App.batch_predict. rewrite Hjson, Hbody.
    cbn [negb mbind outcome_bind contains getitem_any]. rewrite Hdata.
    rewrite bool_decide_true by eauto.
    cbn [mbind outcome_bind App.isinstance_list negb App.len].
    rewrite length_map.
    destruct (Nat.eqb_spec (length items) 0); [lia|].
    destruct (Nat.ltb_spec 100 (length items)); [lia|].
    rewrite batch_predict_any_dicts, Hres.
    cbn [mbind outcome_bind].
    apply Forall2_length in Hall. rewrite length_map in Hall.
    rewrite Hall. reflexivity.
  - apply Forall2_fmap_l in Hall. exact Hall.
Qed.

(** X21.  [/api/batch-predict] answers 400 with an [error] message, without
    calling the predictor, when the object has no "data" key, when "data" is
    not a list, when the list is empty and when it has more than 100
    items. *)
Theorem batch_route_rejects (req : App.request) (d : list (string * pyval)) :
  App.is_json req = true →
  App.get_json req = Return (VDict d) →
  dict_get d "data" = None
  ∨ (∃ v, dict_get d "data" = Some v ∧ App.isinstance_list v = false)
  ∨ (∃ l, dict_get d "data" = Some (VList l) ∧ (l = [] ∨ 100 < length l)%nat) →
  ∃ msg, App.batch_predict str_to_float FLASK_ENV predictor req
         = ([("error", VStr msg)], 400%Z).
Proof.
  intros Hjson Hbody Hcase. unfold App.batch_predict. rewrite Hjson, Hbody.
  cbn [negb mbind outcome_bind contains getitem_any].
  destruct Hcase as [Hnone | [(v & Hv & Hlist) | (l & Hl & Hsize)]].
  - rewrite Hnone. rewrite bool_decide_false by (intros [? ?]; discriminate).
    cbn [mbind outcome_bind negb]. eauto.
  - rewrite Hv. rewrite bool_decide_true by eauto.
    cbn [mbind outcome_bind negb]. rewrite Hlist. cbn [negb]. eauto.
  - rewrite Hl. rewrite bool_decide_true by eauto.
    cbn [mbind outcome_bind App.isinstance_list negb App.len].
    destruct Hsize as [-> | Hbig]; [simpl; eauto|].
    destruct (Nat.eqb_spec (length l) 0); [eauto|].
    destruct (Nat.ltb_spec 100 (length l)); [eauto | lia].
Qed.
End Routes.

Lemma predict_route_status_witness :
  App.is_json (json_request (VDict negative_json)) = true
  ∧ App.get_json (json_request (VDict negative_json)) = Return (VDict negative_json)
  ∧ predict decimal_str_to_float (predictor uniform_model) (list_to_map negative_json)
    = Return negative_result
  ∧ App.predict decimal_str_to_float "production" (predictor uniform_model)
      (json_request (VDict negative_json))
    = (negative_result,
       match dict_get negative_result "error" with
       | Some _ => 400%Z
       | None => 200%Z
       end).
Proof.
  split; [reflexivity|]. split; [reflexivity|].
  split; [vm_compute; reflexivity|].
  apply (predict_route_status decimal_str_to_float "production"
           (predictor uniform_model) (json_request (VDict negative_json))
           negative_json negative_result).
  - reflexivity.
  - reflexivity.
  - vm_compute. reflexivity.
Defined.

Lemma predict_route_overflow_witness :
  App.is_json (json_request (VDict huge_json)) = true
  ∧ App.get_json (json_request (VDict huge_json)) = Return (VDict huge_json)
  ∧ predict decimal_str_to_float (predictor uniform_model) (list_to_map huge_json)
    = Raise (Exn OverflowError "int too large to convert to float")
  ∧ App.predict decimal_str_to_float "production" (predictor uniform_model)
      (json_request (VDict huge_json))
    = ([("error", VStr "Internal server error");
        ("message", VStr (if String.eqb "production" "development"
                          then "int too large to convert to float"
                          else "An error occurred"))],
       500%Z).
Proof.
  split; [reflexivity|]. split; [reflexivity|].
  split; [vm_compute; reflexivity|].
  apply (predict_route_overflow decimal_str_to_float "production"
           (predictor uniform_model) (json_request (VDict huge_json)) huge_json
           (Exn OverflowError "int too large to convert to float")).
  - reflexivity.
  - reflexivity.
  - vm_compute. reflexivity.
Defined.

Lemma predict_route_not_object_witness :
  App.is_json (json_request (VList [VDict sample_json])) = true
  ∧ App.get_json (json_request (VList [VDict sample_json]))
    = Return (VList [VDict sample_json])
  ∧ snd (App.predict decimal_str_to_float "production" (predictor uniform_model)
           (json_request (VList [VDict sample_json])))
    = 500%Z.
Proof.
  split; [reflexivity|]. split; [reflexivity|].
  apply (predict_route_not_object decimal_str_to_float "production"
           (predictor uniform_model) (json_request (VList [VDict sample_json]))
           (VList [VDict sample_json])).
  - reflexivity.
  - reflexivity.
  - intros d. discriminate.
Defined.

Lemma batch_route_ok_witness :
  dict_get batch_json "data" = Some (VList (map VDict [sample_json; negative_json]))
  ∧ Forall (λ it, no_overflow (list_to_map it)) [sample_json; negative_json]
  ∧ ∃ results,
      App.batch_predict decimal_str_to_float "production" (predictor uniform_model)
        (json_request (VDict batch_json))
      = ([("count", VInt (Z.of_nat (length [sample_json; negative_json])));
          ("predictions", VList (map VDict results))],
         200%Z)
      ∧ Forall2 (λ it r,
                   predict decimal_str_to_float (predictor uniform_model)
                     (list_to_map it) = Return r)
          [sample_json; negative_json] results.
Proof.
  split; [reflexivity|]. split; [exact no_overflow_json|].
  apply (batch_route_ok decimal_str_to_float "production" (predictor uniform_model)
           (json_request (VDict batch_json)) batch_json [sample_json; negative_json]).
  - reflexivity.
  - reflexivity.
  - reflexivity.
  - simpl. lia.
  - exact no_overflow_json.
Defined.

Lemma batch_route_rejects_witness :
  dict_get [("data", VList [])] "data" = Some (VList [])
  ∧ ∃ msg, App.batch_predict decimal_str_to_float "production" (predictor uniform_model)
             (json_request (VDict [("data", VList [])]))
           = ([("error", VStr msg)], 400%Z).
Proof.
  split; [reflexivity|].
  apply (batch_route_rejects decimal_str_to_float "production" (predictor uniform_model)
           (json_request (VDict [("data", VList [])])) [("data", VList [])]).
  - reflexivity.
  - reflexivity.
  - right. right. exists []. split; [reflexivity | left; reflexivity].
Defined.

End AppFacts.

(* ================================================================= *)
(** ** The training run *)

Module PipelineFacts.
Import Py Sklearn Os Preprocessing Train TrainPipeline.
Import PreprocessingSpec TrainSpec ServiceSpec.
#[local] Open Scope float_scope.

(** A row is its entries but the last, followed by the last. *)
Lemma take_last_row (r : list PrimFloat.float) (k : nat) :
  length r = S k → (take k r ++ [nth k r nan])%list = r.
Proof.
  revert k. induction r as [|x r IH]; intros k Hlen; [discriminate|].
  destruct k as [|k]; simpl in *.
  - destruct r; [reflexivity | discriminate].
  - rewrite IH by lia. reflexivity.
Qed.

Section LoadData.
Variable read_csv : filesystem → string → outcome ndarray.

(** X22.  [load_data] splits the table of the file into the features (all
    columns but the last) and the labels (the last column): for a table with
    at least one column, the feature array has one column less, there is one
    label per row, and every row of the table is its feature row followed by
    its label. *)
Theorem load_data_splits (fs : filesystem) (path : string) (df : ndarray) :
  read_csv fs path = Return df →
  well_formed df →
  (1 ≤ ncols df)%nat →
  ∃ X y,
    load_data read_csv fs (Some path) = Return (X, y)
    ∧ ncols X = (ncols df - 1)%nat
    ∧ well_formed X
    ∧ length y = nrows df
    ∧ zip_with (λ r label, (r ++ [label])%list) (rows X) y = rows df.
Proof.
  intros Hread Hwf Hcols.
  exists (iloc_features df), (map (λ r, nth (ncols df - 1) r nan) (rows df)).
  split.
  { unfold load_data, iloc_label. rewrite Hread. simpl.
    destruct (Nat.eqb_spec (ncols df) 0); [lia | reflexivity]. }
  split; [reflexivity|].
  split.
  { unfold well_formed, iloc_features in *. cbn [rows ncols].
    apply Forall_fmap. eapply Forall_impl; [exact Hwf|].
    intros r Hr. unfold compose. cbv beta in Hr. rewrite length_take. lia. }
  split; [unfold nrows; apply length_map|].
  unfold iloc_features. cbn [rows ncols].
  rewrite PreprocessingFacts.zip_with_map_same.
  unfold well_formed in Hwf.
  induction Hwf as [|r rs Hr Hrs IH]; [reflexivity|].
  simpl. rewrite IH. f_equal.
  apply take_last_row. lia.
Qed.

(** A file that is not there is reported as FileNotFoundError with the
    message "Data file not found at" and the path, whatever message the
    reader gave; a table without columns is reported as IndexError. *)
Lemma load_data_failures (fs : filesystem) (path : string) :
  (∀ msg, read_csv fs path = Raise (Exn FileNotFoundError msg) →
     load_data read_csv fs (Some path)
     = Raise (Exn FileNotFoundError ("Data file not found at " ++ path)))
  ∧ (∀ df, read_csv fs path = Return df → ncols df = 0%nat →
       load_data read_csv fs (Some path)
       = Raise (Exn IndexError "single positional indexer is out-of-bounds")).
Proof.
  split.
  - intros msg Hread. unfold load_data. rewrite Hread. reflexivity.
  - intros df Hread Hcols. unfold load_data, iloc_label.
    rewrite Hread. simpl. rewrite Hcols. reflexivity.
Qed.
End LoadData.

Section Training.
Variable Model : Type.
Variable new_classifier : RandomForestClassifier → Model.
Variable fit : Model → ndarray → list PrimFloat.float → Model * outcome unit.
Variable train_test_split :
  ndarray → list PrimFloat.float → PrimFloat.float → Z →
  outcome (ndarray * ndarray * list PrimFloat.float * list PrimFloat.float).
Variable compute_metrics :
  Model → ndarray → list PrimFloat.float → ndarray → list PrimFloat.float →
  outcome metrics_t.
Variable report : Model → ndarray → list PrimFloat.float → outcome unit.
Variable pickle_dumps : Model → outcome string.
Variable default_save_path : string.
Variable dirname : string → string.
Variable makedirs : filesystem → string → outcome filesystem.
Variable rand : nat → PrimFloat.float.
Variable choice : nat → nat.
Variable read_csv : filesystem → string → outcome ndarray.

(** X23.  The training script cannot get past its first step: [main] calls
    [load_data] without a path, the default path is computed with [os], which
    [preprocessing.py] never imports, and the NameError is not the
    FileNotFoundError that [main] catches.  Whatever the files and the
    libraries do, [main] raises NameError and leaves the files as they
    were: no model is trained or saved. *)
Theorem main_raises_NameError (fs : filesystem) :
  main Model new_classifier fit train_test_split compute_metrics report pickle_dumps
    default_save_path dirname makedirs rand choice read_csv fs
  = (fs, Raise (Exn NameError "name 'os' is not defined")).
Proof. reflexivity. Qed.

(** What holds whenever [train] returns. *)
Lemma train_returned (w w' : world Model) (X : ndarray) (y : list PrimFloat.float)
    (test_size : PrimFloat.float) (random_state : Z) (r : train_result Model) :
  train Model new_classifier fit train_test_split compute_metrics report
    w X y test_size random_state = (w', Return r) →
  status r = "success"
  ∧ (∃ m, result_model r = Some m ∧ model (self w') = Some m)
  ∧ result_metrics r = metrics (self w')
  ∧ model_save_path (self w') = model_save_path (self w)
  ∧ fs w' = fs w.
Proof.
  unfold train. intros H.
  destruct (train_test_split X y test_size random_state)
    as [[[[X_train X_test] y_train] y_test]|e]; [|discriminate].
  destruct (fit _ X_train y_train) as [clf [u|e]]; [|discriminate].
  unfold _evaluate in H. cbn [self model set_model] in H.
  destruct (compute_metrics clf X_train y_train X_test y_test) as [ms|e];
    [|discriminate].
  destruct (report clf X_test y_test) as [u'|e]; [|discriminate].
  injection H as <- <-. simpl.
  repeat split. exists clf. split; reflexivity.
Qed.

(** X24.  Whenever [train] returns, its status is 'success', the model and
    the metrics of the result are the ones the trainer now holds, and neither
    the save path nor any file has changed: training itself writes
    nothing. *)
Theorem train_returns_trained (w w' : world Model) (X : ndarray)
    (y : list PrimFloat.float) (test_size : PrimFloat.float) (random_state : Z)
    (r : train_result Model) :
  train Model new_classifier fit train_test_split compute_metrics report
    w X y test_size random_state = (w', Return r) →
  status r = "success"
  ∧ (∃ m, result_model r = Some m ∧ model (self w') = Some m)
  ∧ result_metrics r = metrics (self w')
  ∧ model_save_path (self w') = model_save_path (self w)
  ∧ fs w' = fs w.
Proof. apply train_returned. Qed.

(** X25.  A failed fit costs the trainer its previous model: when the split
    succeeds and [fit] raises, [train] raises the same exception, and the
    trainer is left holding the new classifier in the state [fit] left it,
    with the metrics it had before. *)
Theorem train_fit_failure (w : world Model) (X : ndarray) (y : list PrimFloat.float)
    (test_size : PrimFloat.float) (random_state : Z)
    (X_train X_test : ndarray) (y_train y_test : list PrimFloat.float)
    (clf : Model) (e : exn) :
  train_test_split X y test_size random_state
  = Return (X_train, X_test, y_train, y_test) →
  fit (new_classifier (train_classifier random_state)) X_train y_train
  = (clf, Raise e) →
  snd (train Model new_classifier fit train_test_split compute_metrics report
    w X y test_size random_state) = Raise e
  ∧ model (self (fst (train Model new_classifier fit train_test_split compute_metrics report
    w X y test_size random_state))) = Some clf
  ∧ metrics (self (fst (train Model new_classifier fit train_test_split compute_metrics report
    w X y test_size random_state))) = metrics (self w).
Proof.
  intros Hsplit Hfit. unfold train. rewrite Hsplit, Hfit.
  repeat split.
Qed.

(** X26.  Training then saving: after a [train] that returns, [save_model]
    on a writable path puts the pickle of the returned model in the file of
    the trainer and answers [True]. *)
Theorem train_then_save (w w' : world Model) (X : ndarray) (y : list PrimFloat.float)
    (test_size : PrimFloat.float) (random_state : Z) (r : train_result Model)
    (m : Model) (bytes : string) :
  train Model new_classifier fit train_test_split compute_metrics report
    w X y test_size random_state = (w', Return r) →
  result_model r = Some m →
  can_write (fs w') (model_save_path (self w')) = true →
  pickle_dumps m = Return bytes →
  snd (save_model pickle_dumps w') = true
  ∧ files (fs (fst (save_model pickle_dumps w'))) !! model_save_path (self w)
    = Some bytes.
Proof.
  intros Htrain Hm Hw Hd.
  destruct (train_returned w w' X y test_size random_state r Htrain)
    as (_ & (m' & Hm' & Hheld) & _ & Hpath & _).
  rewrite Hm in Hm'. injection Hm' as <-.
  rewrite <- Hpath.
  apply (TrainFacts.save_model_success pickle_dumps w' m bytes Hheld Hw Hd).
Qed.

(** A trainer that has just been constructed holds no model:
    [save_model] on it answers [False], logs the reason and writes no
    file. *)
Lemma fresh_trainer_cannot_save (fs0 : filesystem) (path : option string)
    (w : world Model) :
  ModelTrainer_init Model default_save_path dirname makedirs fs0 path = Return w →
  save_model pickle_dumps w
  = (World (self w) (fs w) ["No model to save. Train a model first."], false).
Proof.
  unfold ModelTrainer_init. intros H.
  destruct (String.eqb _ ""); simpl in H.
  - injection H as <-. reflexivity.
  - destruct (makedirs fs0 _) as [fs1|e]; simpl in H; [|discriminate].
    injection H as <-. reflexivity.
Qed.
End Training.

Lemma load_data_splits_witness :
  read_table writable_fs "stress_data.csv" = Return table
  ∧ well_formed table
  ∧ (1 ≤ ncols table)%nat
  ∧ ∃ X y,
      load_data read_table writable_fs (Some "stress_data.csv") = Return (X, y)
      ∧ ncols X = (ncols table - 1)%nat
      ∧ well_formed X
      ∧ length y = nrows table
      ∧ zip_with (λ r label, (r ++ [label])%list) (rows X) y = rows table.
Proof.
  split; [reflexivity|].
  split; [repeat constructor|].
  split; [simpl; lia|].
  apply (load_data_splits read_table writable_fs "stress_data.csv" table).
  - reflexivity.
  - repeat constructor.
  - simpl. lia.
Defined.

Lemma train_returns_trained_witness :
  train nat stub_new stub_fit stub_split stub_metrics stub_report
    old_trainer X_train y_train default_test_size 42
  = (new_trainer, Return training_result)
  ∧ status training_result = "success"
  ∧ (∃ m, result_model training_result = Some m ∧ model (self new_trainer) = Some m)
  ∧ result_metrics training_result = metrics (self new_trainer)
  ∧ model_save_path (self new_trainer) = model_save_path (self old_trainer)
  ∧ fs new_trainer = fs old_trainer.
Proof.
  split; [reflexivity|].
  apply (train_returns_trained nat stub_new stub_fit stub_split stub_metrics stub_report
           old_trainer new_trainer X_train y_train default_test_size 42 training_result).
  reflexivity.
Defined.

Lemma train_fit_failure_witness :
  stub_split X_train y_train default_test_size 42
  = Return (X_train, X_train, y_train, y_train)
  ∧ stub_fit_failing (stub_new (train_classifier 42)) X_train y_train
    = (1%nat, Raise (Exn ValueError "Unknown label type"))
  ∧ snd (train nat stub_new stub_fit_failing stub_split stub_metrics stub_report
           old_trainer X_train y_train default_test_size 42)
    = Raise (Exn ValueError "Unknown label type")
  ∧ model (self (fst (train nat stub_new stub_fit_failing stub_split stub_metrics
                        stub_report old_trainer X_train y_train default_test_size 42)))
    = Some 1%nat
  ∧ metrics (self (fst (train nat stub_new stub_fit_failing stub_split stub_metrics
                          stub_report old_trainer X_train y_train default_test_size 42)))
    = metrics (self old_trainer).
Proof.
  split; [reflexivity|]. split; [reflexivity|].
  apply (train_fit_failure nat stub_new stub_fit_failing stub_split stub_metrics
           stub_report old_trainer X_train y_train default_test_size 42
           X_train X_train y_train y_train 1%nat
           (Exn ValueError "Unknown label type")).
  - reflexivity.
  - reflexivity.
Defined.

Lemma train_then_save_witness :
  train nat stub_new stub_fit stub_split stub_metrics stub_report
    old_trainer X_train y_train default_test_size 42
  = (new_trainer, Return training_result)
  ∧ result_model training_result = Some 1%nat
  ∧ can_write (fs new_trainer) (model_save_path (self new_trainer)) = true
  ∧ dumps_ok 1%nat = Return ""
  ∧ snd (save_model dumps_ok new_trainer) = true
  ∧ files (fs (fst (save_model dumps_ok new_trainer)))
      !! model_save_path (self old_trainer)
    = Some "".
Proof.
  split; [reflexivity|]. split; [reflexivity|].
  split; [reflexivity|]. split; [reflexivity|].
  apply (train_then_save nat stub_new stub_fit stub_split stub_metrics stub_report
           dumps_ok old_trainer new_trainer X_train y_train default_test_size 42
           training_result 1%nat "").
  - reflexivity.
  - reflexivity.
  - reflexivity.
  - reflexivity.
Defined.

End PipelineFacts.

(* ================================================================= *)
(** ** Missing values and the scaler object *)

Module CleaningFacts.
Import Py Preprocessing PreprocessingSpec ServiceSpec.
#[local] Open Scope float_scope.

Lemma length_columns (X : ndarray) : length (columns X) = ncols X.
Proof. unfold columns. rewrite length_map. apply length_seq. Qed.

(** Filling keeps the length of a row and its entries that are not NaN. *)
Lemma fill_row (r values : list PrimFloat.float) :
  (length r ≤ length values)%nat →
  length (zip_with (λ x v, if isnan x then v else x) r values) = length r
  ∧ ∀ j x, r !! j = Some x → isnan x = false →
      zip_with (λ x v, if isnan x then v else x) r values !! j = Some x.
Proof.
  intros Hlen. split.
  - rewrite length_zip_with. lia.
  - intros j x Hj Hx. rewrite lookup_zip_with, Hj. simpl.
    destruct (values !! j) as [v|] eqn:Hv; simpl.
    + rewrite Hx. reflexivity.
    + apply lookup_ge_None in Hv. apply lookup_lt_Some in Hj. lia.
Qed.

Lemma fillna_preserves (X : ndarray) (values : list PrimFloat.float) :
  well_formed X →
  length values = ncols X →
  ncols (fillna X values) = ncols X
  ∧ well_formed (fillna X values)
  ∧ Forall2 (λ r r', ∀ j x, r !! j = Some x → isnan x = false → r' !! j = Some x)
      (rows X) (rows (fillna X values)).
Proof.
  intros Hwf Hlen. split; [reflexivity|].
  unfold well_formed, fillna in *. simpl.
  split.
  - apply Forall_fmap. eapply Forall_impl; [exact Hwf|].
    intros r Hr. unfold compose. cbv beta in Hr |- *.
    rewrite (proj1 (fill_row r values ltac:(lia))). exact Hr.
  - apply Forall2_fmap_r. apply Forall_Forall2_diag.
    eapply Forall_impl; [exact Hwf|].
    intros r Hr. cbv beta in Hr |- *.
    exact (proj2 (fill_row r values ltac:(lia))).
Qed.

(** X27.  Filling with the column mean or median keeps the shape of the
    array and every entry that was there: only NaN entries are replaced. *)
Theorem handle_missing_values_fill (X : ndarray) (strategy : string) :
  well_formed X →
  strategy = "mean" ∨ strategy = "median" →
  ncols (handle_missing_values X strategy) = ncols X
  ∧ well_formed (handle_missing_values X strategy)
  ∧ Forall2 (λ r r', ∀ j x, r !! j = Some x → isnan x = false → r' !! j = Some x)
      (rows X) (rows (handle_missing_values X strategy)).
Proof.
  intros Hwf [-> | ->]; unfold handle_missing_values; simpl;
    apply fillna_preserves; try exact Hwf;
    rewrite length_map; apply length_columns.
Qed.

(** X28.  Dropping keeps exactly the rows without NaN, in their order: the
    result has the same columns, no NaN, and is a sublist of the rows of
    the input that contains every complete row. *)
Theorem handle_missing_values_drop_complete_rows (X : ndarray) :
  ncols (handle_missing_values X "drop") = ncols X
  ∧ Forall complete (rows (handle_missing_values X "drop"))
  ∧ sublist (rows (handle_missing_values X "drop")) (rows X)
  ∧ ∀ r, r ∈ rows X → complete r → r ∈ rows (handle_missing_values X "drop").
Proof.
  unfold handle_missing_values, dropna. simpl.
  assert (Hc : ∀ r, forallb (λ x, negb (isnan x)) r = true ↔ complete r).
  { intros r. unfold complete. rewrite forallb_forall, Forall_forall.
    split; intros H x Hx.
    - apply negb_true_iff. apply H. apply list_elem_of_In. exact Hx.
    - apply negb_true_iff. apply H. apply list_elem_of_In. exact Hx. }
  split; [reflexivity|]. split; [|split].
  - apply Forall_forall. intros r Hr.
    apply list_elem_of_filter in Hr as [Hr _]. apply Hc. exact Hr.
  - apply sublist_filter.
  - intros r Hr Hcomplete. apply list_elem_of_filter. split; [|exact Hr].
    apply Hc. exact Hcomplete.
Qed.

(** X29.  Fitting and then reusing a scaler: after a call with [fit=True]
    on a scaler of the caller has returned an array, a call with
    [fit=False] on the same data and the same scaler returns the same array
    and leaves the scaler as it is. *)
Theorem preprocess_data_fit_then_reuse (h h' : heap) (X : ndarray) (l : loc)
    (A : ndarray) :
  preprocess_data h X (Some l) true = (h', Return (ObjArray A)) →
  preprocess_data h' X (Some l) false = (h', Return (ObjArray A)).
Proof.
  unfold preprocess_data, fit_transform.
  destruct (scaler_fit X) as [sc|e]; intros H.
  - destruct (scaler_transform sc X) as [B|e] eqn:Ht; simpl in H; [|discriminate].
    injection H as <- <-.
    unfold transform.
    assert (E : <[l := sc]> h !! l = Some sc) by apply lookup_insert_eq.
    rewrite E, Ht. reflexivity.
  - simpl in H. discriminate.
Qed.

(** X30.  A call without a scaler works on a fresh object: the scalers the
    caller already has are left as they were, whether the call returns or
    raises. *)
Theorem preprocess_data_fresh_scaler (h : heap) (X : ndarray) (fit : bool) (l : loc) :
  is_Some (h !! l) →
  fst (preprocess_data h X None fit) !! l = h !! l.
Proof.
  intros Hl.
  assert (Hne : fresh (dom h) ≠ l).
  { intros <-. apply elem_of_dom in Hl. exact (is_fresh (dom h) Hl). }
  assert (E : ∀ sc sc',
    <[fresh (dom h) := sc]> (<[fresh (dom h) := sc']> h) !! l = h !! l).
  { intros sc sc'.
    etransitivity; [apply lookup_insert_ne; exact Hne|].
    apply lookup_insert_ne; exact Hne. }
  unfold preprocess_data, fit_transform.
  destruct fit; simpl.
  - destruct (scaler_fit X); simpl; apply E.
  - apply lookup_insert_ne; exact Hne.
Qed.

Lemma handle_missing_values_fill_witness :
  well_formed X_missing
  ∧ ncols (handle_missing_values X_missing "median") = ncols X_missing
  ∧ well_formed (handle_missing_values X_missing "median")
  ∧ Forall2 (λ r r', ∀ j x, r !! j = Some x → isnan x = false → r' !! j = Some x)
      (rows X_missing) (rows (handle_missing_values X_missing "median")).
Proof.
  split; [repeat constructor|].
  apply (handle_missing_values_fill X_missing "median").
  - repeat constructor.
  - right. reflexivity.
Defined.

Lemma preprocess_data_fit_then_reuse_witness :
  preprocess_data scaler_heap X_train (Some 0%nat) true
  = (fitted_heap, Return (ObjArray scaled_train))
  ∧ preprocess_data fitted_heap X_train (Some 0%nat) false
    = (fitted_heap, Return (ObjArray scaled_train)).
Proof.
  split; [vm_compute; reflexivity|].
  apply (preprocess_data_fit_then_reuse scaler_heap fitted_heap X_train 0%nat
           scaled_train).
  vm_compute. reflexivity.
Defined.

Lemma preprocess_data_fresh_scaler_witness :
  is_Some (fitted_heap !! 0%nat)
  ∧ fst (preprocess_data fitted_heap X_missing None true) !! 0%nat
    = fitted_heap !! 0%nat.
Proof.
  split; [eexists; reflexivity|].
  apply (preprocess_data_fresh_scaler fitted_heap X_missing true 0%nat).
  eexists. reflexivity.
Defined.

End CleaningFacts.
